(** * AngelEyes: the annotation loop of [main.py], embedded and verified

    The Python class [ObjectDetectionUI] is embedded shallowly:
    - Python [float]s are IEEE binary64 values, i.e. Rocq's primitive floats,
      so [min(1.0, thres + 0.05)] rounds here exactly as it does in CPython;
      the confidences of the detector are numpy float32 values, held in
      the doubles that equal them and multiplied with float32 rounding;
    - Python [int]s are [Z];
    - the detection dictionaries are records of optional keys, a subscript
      on a missing key raising [KeyError];
    - an OpenCV image is the term of drawing calls applied to a camera frame
      (two equal terms denote the same pixels);
    - everything the loop reads from outside (camera, detector, clocks,
      keyboard) is an explicit input of the iteration that reads it;
    - the [print] calls write to the terminal only and are left out. *)

From Stdlib Require Import ZArith List String Ascii Bool Lia Permutation.
From Stdlib Require Import DecimalString.
From Stdlib Require Import Floats.PrimFloat Floats.FloatOps Floats.SpecFloat.
From Stdlib Require Import Numbers.Cyclic.Int63.Uint63.
Import ListNotations.

Set Warnings "-inexact-float".

Local Open Scope Z_scope.
Local Open Scope string_scope.

(** ** Python exceptions and fallible computations *)

Inductive PyError : Type :=
| KeyError (key : string)
| ZeroDivisionError
| UnboundLocalError (name : string).

Inductive Result (A : Type) : Type :=
| Ok (a : A)
| Raise (e : PyError).
Arguments Ok {A} a.
Arguments Raise {A} e.

Definition bind {A B : Type} (m : Result A) (k : A -> Result B) : Result B :=
  match m with
  | Ok a => k a
  | Raise e => Raise e
  end.

Notation "x <- m ;; k" := (bind m (fun x => k))
  (at level 61, m at next level, right associativity).

(** [d[key]] on a dictionary that may lack [key]. *)
Definition getitem {A : Type} (key : string) (v : option A) : Result A :=
  match v with
  | Some a => Ok a
  | None => Raise (KeyError key)
  end.

(** ** Python builtins on floats and ints *)

(** [min(a, b)] keeps [a] unless [b < a]; [max(a, b)] keeps [a] unless
    [b > a] (CPython's two-argument [min]/[max]). *)
Definition py_min (a b : float) : float := if PrimFloat.ltb b a then b else a.
Definition py_max (a b : float) : float := if PrimFloat.ltb a b then b else a.

(** The float of a small non-negative Python [int]. *)
Definition float_of_int (n : Z) : float := PrimFloat.of_uint63 (Uint63.of_Z n).

(** [a / b] on floats raises on a zero divisor. *)
Definition py_truediv (a b : float) : Result float :=
  if PrimFloat.eqb b 0%float then Raise ZeroDivisionError else Ok (PrimFloat.div a b).

(** [a * b] on numpy float32 values (a Python int operand is taken as a
    float32): the exact product rounded to the nearest binary32 value,
    ties to even. *)
Definition float32_mul (a b : float) : float :=
  SF2Prim (SFmul 24 128 (Prim2SF a) (Prim2SF b)).

(** [str(n)] for a non-negative int. *)
Definition str_of_int (n : Z) : string := NilZero.string_of_uint (N.to_uint (Z.to_N n)).

(** ** Wall-clock values *)

(** The fields of a [datetime] object. *)
Record datetime : Type := {
  year : Z; month : Z; day : Z;
  hour : Z; minute : Z; second : Z; microsecond : Z
}.

Definition digit (n : Z) : ascii := ascii_of_nat (48 + Z.to_nat n).

(** [%H], [%M] and [%S]: two digits, zero padded. *)
Definition two_digits (n : Z) : string :=
  String (digit (n / 10)) (String (digit (n mod 10)) EmptyString).

(** [now.strftime("%H:%M:%S")]. *)
Definition strftime_HMS (now : datetime) : string :=
  two_digits (hour now) ++ ":" ++ two_digits (minute now) ++ ":" ++ two_digits (second now).

(** ** Images as terms of OpenCV calls *)

Definition Point : Type := Z * Z.
Definition Color : Type := Z * Z * Z.

(** [cv2.FONT_HERSHEY_SIMPLEX]. *)
Definition FONT_HERSHEY_SIMPLEX : Z := 0.

Inductive Img : Type :=
| Frame (height width : Z) (pixels : list Z)
| Rectangle (img : Img) (pt1 pt2 : Point) (color : Color) (thickness : Z)
| Line (img : Img) (pt1 pt2 : Point) (color : Color) (thickness : Z)
| PutText (img : Img) (text : string) (org : Point) (fontFace : Z)
          (fontScale : float) (color : Color) (thickness : Z)
| AddWeighted (src1 : Img) (alpha : float) (src2 : Img) (beta gamma : float).

(** [img.shape[:2]]: no drawing call changes the size of its image. *)
Fixpoint shape (img : Img) : Z * Z :=
  match img with
  | Frame h w _ => (h, w)
  | Rectangle i _ _ _ _ => shape i
  | Line i _ _ _ _ => shape i
  | PutText i _ _ _ _ _ _ => shape i
  | AddWeighted i _ _ _ _ => shape i
  end.

(** [img.copy()]: the copy has the pixels of the original. *)
Definition copy (img : Img) : Img := img.

(** ** What the program takes from its libraries

    [getTextSize text scale thickness] is the [(width, height)] OpenCV
    measures, [format_1f x] is [f"{x:.1f}"], [upper] is [str.upper], and
    [set_list l] is [list(set(l))]: the distinct elements of [l] in the
    iteration order of a CPython set, which follows the hashes of the
    elements and not the order of insertion. *)
Record Lib : Type := {
  getTextSize : string -> float -> Z -> Z * Z;
  format_1f : float -> string;
  upper : string -> string;
  set_list : list string -> list string
}.

(** What the Python language promises of [list(set(l))]. *)
Definition py_set_order (f : list string -> list string) : Prop :=
  forall l, NoDup (f l) /\ (forall x, In x (f l) <-> In x l).

(** ** Detections, history entries and the application object *)

(** A row [(x, y, w, h)] of [bbox]: pixel coordinates, far from the
    bounds of the detector's 32-bit integers. *)
Definition Box : Type := Z * Z * Z * Z.

(** A detection dictionary: the keys it holds among
    ['box'], ['class_name'], ['confidence'] and ['class_id']. *)
Record Detection : Type := {
  box : option Box;
  class_name : option string;
  confidence : option float;
  class_id : option Z
}.

Record HistoryEntry : Type := {
  time : datetime;
  count : Z;
  objects : list string
}.

(** The fields of [self] the loop reads or writes. *)
Record ObjectDetectionUI : Type := {
  thres : float;
  classNames : list string;
  model_loaded : bool;
  fps_counter : Z;
  fps_start_time : float;
  current_fps : float;
  detection_history : list HistoryEntry;
  show_stats : bool;
  paused : bool
}.

Definition colors : list Color :=
  [ (255, 100, 100); (100, 255, 100); (100, 100, 255);
    (255, 255, 100); (255, 100, 255); (100, 255, 255);
    (200, 150, 100); (150, 200, 100); (100, 150, 200) ].

Definition font : Z := FONT_HERSHEY_SIMPLEX.
Definition font_scale : float := 0.8%float.
Definition thickness : Z := 2.

(** [__init__], given the class names read from [coco.names] (or the
    default list), whether the model loaded, and the clock reading. *)
Definition default_classNames : list string :=
  ["person"; "bicycle"; "car"; "motorcycle"; "airplane"].

Definition init (names : list string) (loaded : bool) (t0 : float) : ObjectDetectionUI :=
  {| thres := 0.5%float;
     classNames := names;
     model_loaded := loaded;
     fps_counter := 0;
     fps_start_time := t0;
     current_fps := 0%float;
     detection_history := [];
     show_stats := true;
     paused := false |}.

(** ** The overlay passes *)

Section Drawing.

Variable L : Lib.

(** [draw_header]: a black band blended over the top 80 rows, the title
    and the settings line. The blend is a new array; the caller's image
    is not touched. *)
Definition draw_header (self : ObjectDetectionUI) (img : Img) : Img :=
  let overlay := copy img in
  let '(height, width) := shape img in
  let overlay := Rectangle overlay (0, 0) (width, 80) (0, 0, 0) (-1) in
  let img := AddWeighted img 0.7%float overlay 0.3%float 0%float in
  let img := PutText img "AngelEyes - Object Detection" (10, 30)
                     font 0.8%float (255, 255, 255) 2 in
  let settings := "Threshold: " ++ format_1f L (thres self)
                  ++ " | FPS: " ++ format_1f L (current_fps self) in
  PutText img settings (10, 55) font 0.5%float (150, 255, 150) 1.

(** The class names the footer collects: one per detection holding the
    key ['class_name'], in input order. *)
Definition detected_objects (detections : list Detection) : list string :=
  flat_map (fun detection =>
              match class_name detection with
              | Some name => [name]
              | None => []
              end) detections.

(** The text of the footer's second line, when one is drawn. *)
Definition objects_text (detections : list Detection) : option string :=
  let detected := detected_objects detections in
  match detected with
  | [] => None
  | _ :: _ =>
      let unique_objects := set_list L detected in
      let text := "Detected: " ++ String.concat ", " (firstn 4 unique_objects) in
      Some (if (4 <? Z.of_nat (List.length unique_objects))%Z then text ++ "..." else text)
  end.

(** [draw_footer_stats]; [now] is the value of [datetime.now()]. *)
Definition draw_footer_stats (self : ObjectDetectionUI) (now : datetime)
           (img : Img) (detections : list Detection) : Img :=
  if negb (show_stats self) then img
  else
    let '(height, width) := shape img in
    let overlay := copy img in
    let footer_height := 80 in
    let overlay := Rectangle overlay (0, height - footer_height) (width, height)
                             (0, 0, 0) (-1) in
    let img := AddWeighted img 0.7%float overlay 0.3%float 0%float in
    let detection_count := Z.of_nat (List.length detections) in
    let current_time := strftime_HMS now in
    let img := PutText img ("Objects: " ++ str_of_int detection_count
                            ++ " | Time: " ++ current_time)
                       (10, height - 50) font 0.6%float (100, 255, 100) 1 in
    match objects_text detections with
    | Some text => PutText img text (10, height - 20) font 0.5%float (255, 255, 100) 1
    | None => img
    end.

(** The label of one detection: the y coordinate the source calls
    [label_y], the height of the label background, and the two corners
    handed to [cv2.rectangle] for it. *)
Definition label_y (y : Z) : Z := Z.max y 90.

Definition label_bg_height (label_h conf_h : Z) : Z := Z.max label_h conf_h + 15.

Definition label_text (name : string) : string := upper L name.

Definition confidence_text (conf : float) : string :=
  format_1f L (float32_mul conf 100%float) ++ "%".

Definition label_background (b : Box) (name : string) (conf : float) : Point * Point :=
  let '(x, y, w, h) := b in
  let '(label_w, label_h) := getTextSize L (label_text name) font_scale thickness in
  let '(conf_w, conf_h) := getTextSize L (confidence_text conf) 0.5%float 1 in
  ((x, label_y y - label_bg_height label_h conf_h),
   (x + Z.max label_w conf_w + 15, label_y y)).

(** The body of the loop of [draw_enhanced_bounding_boxes] for the
    detection at index [i]; the drawing calls change [img] in place. *)
Definition draw_detection (img : Img) (i : nat) (detection : Detection) : Result Img :=
  b <- getitem "box" (box detection) ;;
  name <- getitem "class_name" (class_name detection) ;;
  conf <- getitem "confidence" (confidence detection) ;;
  let '(x, y, w, h) := b in
  let color := nth (i mod List.length colors) colors (0, 0, 0) in
  let img := Rectangle img (x, y) (x + w, y + h) color 2 in
  let corner_length := 20 in
  let corner_thickness := 3 in
  let img := Line img (x, y) (x + corner_length, y) color corner_thickness in
  let img := Line img (x, y) (x, y + corner_length) color corner_thickness in
  let img := Line img (x + w, y) (x + w - corner_length, y) color corner_thickness in
  let img := Line img (x + w, y) (x + w, y + corner_length) color corner_thickness in
  let img := Line img (x, y + h) (x + corner_length, y + h) color corner_thickness in
  let img := Line img (x, y + h) (x, y + h - corner_length) color corner_thickness in
  let img := Line img (x + w, y + h) (x + w - corner_length, y + h) color corner_thickness in
  let img := Line img (x + w, y + h) (x + w, y + h - corner_length) color corner_thickness in
  let label := label_text name in
  let conf_text := confidence_text conf in
  let '(label_w, label_h) := getTextSize L label font_scale thickness in
  let '(conf_w, conf_h) := getTextSize L conf_text 0.5%float 1 in
  let '(pt1, pt2) := label_background b name conf in
  let img := Rectangle img pt1 pt2 color (-1) in
  let img := Rectangle img pt1 pt2 (255, 255, 255) 1 in
  let img := PutText img label
                     (x + 8, label_y y - label_bg_height label_h conf_h + label_h + 3)
                     font font_scale (255, 255, 255) thickness in
  Ok (PutText img conf_text (x + 8, label_y y - 3) font 0.5%float (255, 255, 255) 1).

Fixpoint draw_detections_from (i : nat) (img : Img) (detections : list Detection)
  : Result Img :=
  match detections with
  | [] => Ok img
  | detection :: rest =>
      img' <- draw_detection img i detection ;;
      draw_detections_from (S i) img' rest
  end.

(** [draw_enhanced_bounding_boxes]. *)
Definition draw_enhanced_bounding_boxes (img : Img) (detections : list Detection)
  : Result Img :=
  match detections with
  | [] => Ok img
  | _ => draw_detections_from 0 img detections
  end.

(** Lines 228 to 238 of [run]: header, boxes, footer, then the pause
    banner. *)
Definition compose (self : ObjectDetectionUI) (now : datetime)
           (img : Img) (detections : list Detection) : Result Img :=
  let img := draw_header self img in
  img <- draw_enhanced_bounding_boxes img detections ;;
  let img := draw_footer_stats self now img detections in
  Ok (if paused self
      then let '(height, width) := shape img in
           PutText img "PAUSED - Press P to resume"
                   (width / 2 - 150, height / 2) font 1%float (0, 0, 255) 2
      else img).

End Drawing.

(** ** The frame-rate estimate *)

(** [calculate_fps]; [end_time] and [restart_time] are the values of the
    two calls of [time.time()], read only when the counter reaches 30. *)
Definition calculate_fps (self : ObjectDetectionUI) (end_time restart_time : float)
  : Result ObjectDetectionUI :=
  let counter := fps_counter self + 1 in
  if (30 <=? counter)%Z then
    fps <- py_truediv (float_of_int counter) (end_time - fps_start_time self)%float ;;
    Ok {| thres := thres self;
          classNames := classNames self;
          model_loaded := model_loaded self;
          fps_counter := 0;
          fps_start_time := restart_time;
          current_fps := fps;
          detection_history := detection_history self;
          show_stats := show_stats self;
          paused := paused self |}
  else
    Ok {| thres := thres self;
          classNames := classNames self;
          model_loaded := model_loaded self;
          fps_counter := counter;
          fps_start_time := fps_start_time self;
          current_fps := current_fps self;
          detection_history := detection_history self;
          show_stats := show_stats self;
          paused := paused self |}.

(** ** Field updates of [self] *)

Definition set_thres (v : float) (self : ObjectDetectionUI) : ObjectDetectionUI :=
  {| thres := v;
     classNames := classNames self;
     model_loaded := model_loaded self;
     fps_counter := fps_counter self;
     fps_start_time := fps_start_time self;
     current_fps := current_fps self;
     detection_history := detection_history self;
     show_stats := show_stats self;
     paused := paused self |}.

Definition set_detection_history (v : list HistoryEntry) (self : ObjectDetectionUI)
  : ObjectDetectionUI :=
  {| thres := thres self;
     classNames := classNames self;
     model_loaded := model_loaded self;
     fps_counter := fps_counter self;
     fps_start_time := fps_start_time self;
     current_fps := current_fps self;
     detection_history := v;
     show_stats := show_stats self;
     paused := paused self |}.

Definition set_show_stats (v : bool) (self : ObjectDetectionUI) : ObjectDetectionUI :=
  {| thres := thres self;
     classNames := classNames self;
     model_loaded := model_loaded self;
     fps_counter := fps_counter self;
     fps_start_time := fps_start_time self;
     current_fps := current_fps self;
     detection_history := detection_history self;
     show_stats := v;
     paused := paused self |}.

Definition set_paused (v : bool) (self : ObjectDetectionUI) : ObjectDetectionUI :=
  {| thres := thres self;
     classNames := classNames self;
     model_loaded := model_loaded self;
     fps_counter := fps_counter self;
     fps_start_time := fps_start_time self;
     current_fps := current_fps self;
     detection_history := detection_history self;
     show_stats := show_stats self;
     paused := v |}.

(** ** The body of the loop of [run] *)

(** What [self.net.detect] does: it raises, or it returns the three
    arrays [classIds], [confs] and [bbox] (flattened). *)
Inductive DetectResult : Type :=
| DetectError
| Detected (classIds : list Z) (confs : list float) (bbox : list Box).

(** What one iteration reads from outside, each value read only on the
    path that reaches its call:
    [cap_read] is [self.cap.read()] ([None] when [success] is false),
    [net_detect] is [self.net.detect(img, confThreshold=self.thres)],
    [now_history] and [now_footer] are the two [datetime.now()],
    [time_end] and [time_restart] the two [time.time()] of
    [calculate_fps], and [wait_key] is [cv2.waitKey(1)]. *)
Record IterInput : Type := {
  cap_read : option Img;
  net_detect : DetectResult;
  now_history : datetime;
  now_footer : datetime;
  time_end : float;
  time_restart : float;
  wait_key : Z
}.

Fixpoint zip3 {A B C : Type} (la : list A) (lb : list B) (lc : list C)
  : list (A * B * C) :=
  match la, lb, lc with
  | a :: la', b :: lb', c :: lc' => (a, b, c) :: zip3 la' lb' lc'
  | _, _, _ => []
  end.

(** [0 <= classId-1 < len(self.classNames)]. *)
Definition valid_class_id (names : list string) (classId : Z) : bool :=
  (0 <=? classId - 1)%Z && (classId - 1 <? Z.of_nat (List.length names))%Z.

(** The dictionary appended for one detector result. *)
Definition make_detection (names : list string) (r : Z * float * Box) : Detection :=
  let '(classId, conf, b) := r in
  {| box := Some b;
     class_name := Some (nth (Z.to_nat (classId - 1)) names "");
     confidence := Some conf;
     class_id := Some classId |}.

(** The [for] loop over the zipped results, appending to [detections]. *)
Fixpoint append_detections (names : list string) (detections : list Detection)
         (results : list (Z * float * Box)) : list Detection :=
  match results with
  | [] => detections
  | (classId, conf, b) :: rest =>
      if valid_class_id names classId
      then append_detections names
             (detections ++ [make_detection names (classId, conf, b)])%list rest
      else append_detections names detections rest
  end.

(** Lines 200 to 215: the detections of the iteration. *)
Definition detect (self : ObjectDetectionUI) (r : DetectResult) : list Detection :=
  let detections := [] in
  if model_loaded self && negb (paused self) then
    match r with
    | DetectError => detections
    | Detected classIds confs bbox =>
        if negb (Nat.eqb (List.length classIds) 0)
        then append_detections (classNames self) detections (zip3 classIds confs bbox)
        else detections
    end
  else detections.

(** ['objects': [d['class_name'] for d in detections]]. *)
Fixpoint class_names_of (detections : list Detection) : Result (list string) :=
  match detections with
  | [] => Ok []
  | d :: rest =>
      name <- getitem "class_name" (class_name d) ;;
      names <- class_names_of rest ;;
      Ok (name :: names)
  end.

(** Lines 217 to 226 on the history list alone. *)
Definition record (history : list HistoryEntry) (now : datetime)
           (detections : list Detection) : Result (list HistoryEntry) :=
  match detections with
  | [] => Ok history
  | _ :: _ =>
      names <- class_names_of detections ;;
      let history := (history ++ [ {| time := now;
                                      count := Z.of_nat (List.length detections);
                                      objects := names |} ])%list in
      Ok (if (100 <? Z.of_nat (List.length history))%Z then tl history else history)
  end.

Definition update_history (self : ObjectDetectionUI) (now : datetime)
           (detections : list Detection) : Result ObjectDetectionUI :=
  history <- record (detection_history self) now detections ;;
  Ok (set_detection_history history self).

(** Whether the loop keeps a detector result. *)
Definition keeps (names : list string) (r : Z * float * Box) : bool :=
  valid_class_id names (fst (fst r)).

(** A detection that holds every key the drawing code reads. *)
Definition complete (d : Detection) : Prop :=
  box d <> None /\ class_name d <> None /\ confidence d <> None.

(** [ord(c)]. *)
Definition ord (c : ascii) : Z := Z.of_N (N_of_ascii c).

Definition increase_threshold (t : float) : float := py_min 1.0%float (t + 0.05)%float.
Definition decrease_threshold (t : float) : float := py_max 0.1%float (t - 0.05)%float.

(** Lines 247 to 264: the new [self], and whether the loop breaks. *)
Definition handle_key (self : ObjectDetectionUI) (waited : Z) : ObjectDetectionUI * bool :=
  let key := Z.land waited 255 in
  if (key =? ord "q")%Z || (key =? ord "Q")%Z then (self, true)
  else if (key =? ord "s")%Z || (key =? ord "S")%Z
  then (set_show_stats (negb (show_stats self)) self, false)
  else if (key =? ord "p")%Z || (key =? ord "P")%Z
  then (set_paused (negb (paused self)) self, false)
  else if (key =? ord "r")%Z || (key =? ord "R")%Z
  then (set_detection_history [] self, false)
  else if (key =? ord "+")%Z || (key =? ord "=")%Z
  then (set_thres (increase_threshold (thres self)) self, false)
  else if (key =? ord "-")%Z
  then (set_thres (decrease_threshold (thres self)) self, false)
  else (self, false).

(** The state the loop carries from one iteration to the next: [self]
    and the local variable [img] (unbound before the first read). *)
Record LoopState : Type := {
  ls_self : ObjectDetectionUI;
  ls_img : option Img
}.

(** Lines 193 to 197: the value of [img] after them, or the [break]. *)
Inductive Acquired : Type :=
| CameraFailed
| Acquire (img : option Img).

Definition acquire (s : LoopState) (inp : IterInput) : Acquired :=
  if negb (paused (ls_self s)) then
    match cap_read inp with
    | Some frame => Acquire (Some frame)
    | None => CameraFailed
    end
  else Acquire (ls_img s).

(** How an iteration ends. [handed] is the image given to [draw_header],
    [shown] the one given to [cv2.imshow]. *)
Inductive Outcome : Type :=
| Continue (s : LoopState) (handed shown : Img)
| Break (s : LoopState) (shown : option Img)
| Uncaught (e : PyError).

Definition run_iteration (L : Lib) (s : LoopState) (inp : IterInput) : Outcome :=
  match acquire s inp with
  | CameraFailed => Break s None
  | Acquire img =>
      let detections := detect (ls_self s) (net_detect inp) in
      match update_history (ls_self s) (now_history inp) detections with
      | Raise e => Uncaught e
      | Ok self =>
          match img with
          | None => Uncaught (UnboundLocalError "img")
          | Some handed =>
              match compose L self (now_footer inp) handed detections with
              | Raise e => Uncaught e
              | Ok shown =>
                  match calculate_fps self (time_end inp) (time_restart inp) with
                  | Raise e => Uncaught e
                  | Ok self =>
                      let '(self, quit) := handle_key self (wait_key inp) in
                      let s' := {| ls_self := self; ls_img := Some shown |} in
                      if quit then Break s' (Some shown) else Continue s' handed shown
                  end
              end
          end
      end
  end.

(** The loop over the inputs of its first iterations. *)
Inductive RunEnd : Type :=
| Running (s : LoopState)
| Stopped (s : LoopState)
| Crashed (e : PyError).

Fixpoint run (L : Lib) (s : LoopState) (inputs : list IterInput)
  : list (Img * Img) * RunEnd :=
  match inputs with
  | [] => ([], Running s)
  | inp :: rest =>
      match run_iteration L s inp with
      | Continue s' handed shown =>
          let '(frames, e) := run L s' rest in ((handed, shown) :: frames, e)
      | Break s' _ => ([], Stopped s')
      | Uncaught e => ([], Crashed e)
      end
  end.

(** ** The footer listing as the specification words it

    "Deduplicates while preserving first-seen order, joins up to the first
    4 distinct names with a separator, and appends an ellipsis marker if
    more than 4 distinct names exist." *)

Fixpoint dedup_first_seen (l : list string) : list string :=
  match l with
  | [] => []
  | x :: rest => x :: filter (fun y => negb (String.eqb y x)) (dedup_first_seen rest)
  end.

Definition footer_listing_spec (names : list string) : string :=
  let distinct := dedup_first_seen names in
  let text := "Detected: " ++ String.concat ", " (firstn 4 distinct) in
  if (4 <? Z.of_nat (List.length distinct))%Z then text ++ "..." else text.

(** ** Library functions to run the model on examples *)

(** A set whose table holds each name in the slot [slot name]: iteration
    visits the slots in increasing order. *)
Fixpoint insert_by (slot : string -> Z) (x : string) (l : list string) : list string :=
  match l with
  | [] => [x]
  | y :: rest => if (slot x <? slot y)%Z then x :: l else y :: insert_by slot x rest
  end.

Definition set_list_by (slot : string -> Z) (l : list string) : list string :=
  fold_right (insert_by slot) [] (dedup_first_seen l).

Definition upper_ascii (c : ascii) : ascii :=
  let n := nat_of_ascii c in
  if (97 <=? n)%nat && (n <=? 122)%nat then ascii_of_nat (n - 32) else c.

Fixpoint upper_string (s : string) : string :=
  match s with
  | EmptyString => EmptyString
  | String c rest => String (upper_ascii c) (upper_string rest)
  end.

(** A lower-case letter is rendered on a 12 by 20 grid scaled by twice the
    font scale: enough to give every text a size. *)
Definition text_size (text : string) (scale : float) (thick : Z) : Z * Z :=
  let twice := if PrimFloat.ltb 0.6%float scale then 2 else 1 in
  (Z.of_nat (String.length text) * 6 * twice + thick, 10 * twice + thick).

Definition round_half_even (n d : Z) : Z :=
  let q := n / d in
  let r := n mod d in
  if (2 * r <? d)%Z then q
  else if (d <? 2 * r)%Z then q + 1
  else if Z.even q then q else q + 1.

(** [f"{x:.1f}"]: the decimal nearest to the exact binary value. *)
Definition format_1f_exact (x : float) : string :=
  match FloatOps.Prim2SF x with
  | SpecFloat.S754_zero s => (if s then "-" else "") ++ "0.0"
  | SpecFloat.S754_infinity s => if s then "-inf" else "inf"
  | SpecFloat.S754_nan => "nan"
  | SpecFloat.S754_finite s m e =>
      let n := Z.pos m * 10 in
      let t := if (0 <=? e)%Z then n * 2 ^ e else round_half_even n (2 ^ (- e)) in
      (if s then "-" else "") ++ str_of_int (t / 10) ++ "." ++ str_of_int (t mod 10)
  end.

(** The slots of a run in which "dog" hashes below "cat". *)
Definition demo_slot (name : string) : Z :=
  if String.eqb name "dog" then 1 else 5.

Definition demo_lib : Lib :=
  {| getTextSize := text_size;
     format_1f := format_1f_exact;
     upper := upper_string;
     set_list := set_list_by demo_slot |}.

(** The same library on a run whose set happens to iterate in insertion
    order. *)
Definition ordered_lib : Lib :=
  {| getTextSize := text_size;
     format_1f := format_1f_exact;
     upper := upper_string;
     set_list := dedup_first_seen |}.

Definition named (name : string) : Detection :=
  {| box := Some (100, 200, 50, 60);
     class_name := Some name;
     confidence := Some 0.9%float;
     class_id := Some 1 |}.


(** ** Key presses and the threshold *)

(** The session after the keys [keys], one per iteration, are handled. *)
Definition press (self : ObjectDetectionUI) (keys : list Z) : ObjectDetectionUI :=
  fold_left (fun s key => fst (handle_key s key)) keys self.

(** [0.1 <= t <= 1.0]. *)
Definition in_range (t : float) : bool := (0.1 <=? t)%float && (t <=? 1.0)%float.

(** The change from [t] to [t'] is 0.05 up to the rounding of one
    addition: it differs from 0.05 by at most 2^-52. *)
Definition step_size_ok (t t' : float) : bool :=
  (abs (abs (t' - t) - 0.05) <=? 0x1p-52)%float.

(** Equal up to the rounding of doubles: within 1e-15. *)
Definition close (a b : float) : bool := (abs (a - b) <=? 1e-15)%float.

(** What is checked of one threshold value: it is in range, and a step
    from it that is not clamped has the right size. *)
Definition threshold_ok (t : float) : bool :=
  in_range t
  && (if (t + 0.05 <? 1.0)%float then step_size_ok t (t + 0.05)%float else true)
  && (if (0.1 <? t - 0.05)%float then step_size_ok t (t - 0.05)%float else true).

(** The doubles the threshold can take, starting from 0.5. *)
Definition reachable_thresholds : list float :=
  [ 0.1; 0.10000000000000002; 0.10000000000000007; 0.1499999999999997;
    0.15000000000000002; 0.15000000000000008; 0.19999999999999968; 0.2;
    0.20000000000000007; 0.24999999999999967; 0.25; 0.25000000000000006;
    0.29999999999999966; 0.3; 0.30000000000000004; 0.34999999999999964;
    0.35; 0.35000000000000003; 0.39999999999999963; 0.39999999999999997;
    0.4; 0.4499999999999996; 0.44999999999999996; 0.45;
    0.4999999999999996; 0.49999999999999994; 0.5; 0.5499999999999996;
    0.5499999999999999; 0.55; 0.5999999999999996; 0.6;
    0.6000000000000001; 0.6499999999999997; 0.65; 0.6500000000000001;
    0.6999999999999997; 0.7000000000000001; 0.7000000000000002; 0.7499999999999998;
    0.7500000000000001; 0.7500000000000002; 0.7999999999999998; 0.8000000000000002;
    0.8000000000000003; 0.8499999999999999; 0.8500000000000002; 0.8500000000000003;
    0.8999999999999999; 0.9000000000000002; 0.9000000000000004; 0.95;
    0.9500000000000003; 0.9500000000000004; 1.0 ]%float.

(** ** The history over many iterations *)

(** The history update of successive iterations, each with the clock
    reading and the detections of its frame. *)
Fixpoint record_all (history : list HistoryEntry)
         (frames : list (datetime * list Detection)) : Result (list HistoryEntry) :=
  match frames with
  | [] => Ok history
  | (now, detections) :: rest =>
      history' <- record history now detections ;;
      record_all history' rest
  end.

(** The entry the loop appends for a frame with detections. *)
Definition entry (now : datetime) (detections : list Detection) : HistoryEntry :=
  {| time := now;
     count := Z.of_nat (List.length detections);
     objects := detected_objects detections |}.

(** The entries of the frames that have detections, oldest first. *)
Definition entries_of (frames : list (datetime * list Detection)) : list HistoryEntry :=
  flat_map (fun f => match snd f with
                     | [] => []
                     | _ :: _ => [entry (fst f) (snd f)]
                     end) frames.

(** The last [n] elements of a list, in order. *)
Definition lastn {A : Type} (n : nat) (l : list A) : list A :=
  skipn (List.length l - n) l.

(** Frame number [i] of a run that sees one cat per frame. *)
Definition cat_frame (i : nat) : datetime * list Detection :=
  ({| year := 2024; month := 5; day := 17;
      hour := 9; minute := 5; second := 30; microsecond := Z.of_nat i |},
   [named "cat"]).

(** ** The frame-rate estimate over many iterations *)

(** [calculate_fps] called once per pair of clock readings. *)
Fixpoint calculate_fps_each (self : ObjectDetectionUI) (clocks : list (float * float))
  : Result ObjectDetectionUI :=
  match clocks with
  | [] => Ok self
  | (end_time, restart_time) :: rest =>
      self' <- calculate_fps self end_time restart_time ;;
      calculate_fps_each self' rest
  end.

Definition set_fps_counter (v : Z) (self : ObjectDetectionUI) : ObjectDetectionUI :=
  {| thres := thres self;
     classNames := classNames self;
     model_loaded := model_loaded self;
     fps_counter := v;
     fps_start_time := fps_start_time self;
     current_fps := current_fps self;
     detection_history := detection_history self;
     show_stats := show_stats self;
     paused := paused self |}.

(** The session after a window closes: the estimate [fps] is published
    and the next window starts at [restart_time]. *)
Definition publish_fps (fps restart_time : float) (self : ObjectDetectionUI)
  : ObjectDetectionUI :=
  {| thres := thres self;
     classNames := classNames self;
     model_loaded := model_loaded self;
     fps_counter := 0;
     fps_start_time := restart_time;
     current_fps := fps;
     detection_history := detection_history self;
     show_stats := show_stats self;
     paused := paused self |}.

(** ** Iterations that differ in what the camera and the detector give *)


(** ** Two iterations around a press of [p] *)

Definition nine_o_five : datetime :=
  {| year := 2024; month := 5; day := 17;
     hour := 9; minute := 5; second := 30; microsecond := 0 |}.

(** The camera frame of the first iteration. *)
Definition camera_frame : Img := Frame 720 1280 [17; 34; 51].

(** An unpaused iteration that reads [camera_frame], detects nothing and
    ends on the key [p]. *)
Definition pressing_p : IterInput :=
  {| cap_read := Some camera_frame;
     net_detect := Detected [] [] [];
     now_history := nine_o_five;
     now_footer := nine_o_five;
     time_end := 1%float;
     time_restart := 1%float;
     wait_key := ord "p" |}.

(** The next iteration: the camera has a new frame ready and no key is
    pressed. *)
Definition idle : IterInput :=
  {| cap_read := Some (Frame 720 1280 [68; 85; 102]);
     net_detect := Detected [] [] [];
     now_history := nine_o_five;
     now_footer := nine_o_five;
     time_end := 2%float;
     time_restart := 2%float;
     wait_key := -1 |}.

Definition start : LoopState :=
  {| ls_self := init default_classNames true 0%float; ls_img := None |}.

(** What the first of the two iterations displays, and the state it
    leaves. *)
Definition shown_first : Img :=
  draw_footer_stats demo_lib (ls_self start) nine_o_five
    (draw_header demo_lib (ls_self start) camera_frame) [].

Definition state_first : LoopState :=
  {| ls_self := set_paused true (set_fps_counter 1 (ls_self start));
     ls_img := Some shown_first |}.

(** What the second, paused iteration displays, and the state it leaves. *)
Definition shown_second : Img :=
  let img := draw_footer_stats demo_lib (ls_self state_first) nine_o_five
               (draw_header demo_lib (ls_self state_first) shown_first) [] in
  PutText img "PAUSED - Press P to resume" (1280 / 2 - 150, 720 / 2)
          font 1%float (0, 0, 255) 2.

Definition state_second : LoopState :=
  {| ls_self := set_fps_counter 2 (ls_self state_first);
     ls_img := Some shown_second |}.

(** ** Proof steps used more than once *)

(** Finds a computed double in a list of doubles. *)
Ltac find_float := simpl In; repeat (first [left; reflexivity | right]).

(** Rewrites the tests of [handle_key] with the key at hand. *)
Ltac key_case :=
  repeat match goal with
         | H : _ \/ _ |- _ => destruct H
         | H : ?k = _ |- context [Z.eqb ?k _] => rewrite H
         end;
  simpl; auto.

(** ** Loading the class names *)

Definition newline : ascii := "010"%char.

(** [s.rstrip('\n')]: [s] without its trailing newlines. *)
Fixpoint rstrip_newline (s : string) : string :=
  match s with
  | EmptyString => EmptyString
  | String c rest =>
      match rstrip_newline rest with
      | EmptyString => if Ascii.eqb c newline then EmptyString else String c EmptyString
      | stripped => String c stripped
      end
  end.

(** [s.split('\n')]: the pieces of [s] between its newlines; one piece
    more than [s] has newlines. *)
Fixpoint split_newline (s : string) : list string :=
  match s with
  | EmptyString => [EmptyString]
  | String c rest =>
      if Ascii.eqb c newline then EmptyString :: split_newline rest
      else match split_newline rest with
           | [] => [String c EmptyString]
           | piece :: pieces => String c piece :: pieces
           end
  end.

(** Lines 14 to 21 of [__init__]: [file] is the text of [coco.names] as
    [f.read()] returns it, or [None] when opening it raises
    [FileNotFoundError]. *)
Definition load_class_names (file : option string) : list string :=
  match file with
  | Some text => split_newline (rstrip_newline text)
  | None => default_classNames
  end.

(** Whether a string holds a newline. *)
Fixpoint has_newline (s : string) : bool :=
  match s with
  | EmptyString => false
  | String c rest => Ascii.eqb c newline || has_newline rest
  end.

(** [n] newlines. *)
Fixpoint newlines (n : nat) : string :=
  match n with
  | O => EmptyString
  | S k => String newline (newlines k)
  end.

(** A [coco.names] holding [names], one per line, closed by [n]
    newlines. *)
Definition names_file (names : list string) (n : nat) : string :=
  String.concat (String newline EmptyString) names ++ newlines n.

(** ** What the box pass draws *)

(** The rectangles drawn on an image, oldest first: corners, color and
    thickness of each [cv2.rectangle] applied to it. A blend shows the
    rectangles of its first source. *)
Fixpoint rectangles (img : Img) : list (Point * Point * Color * Z) :=
  match img with
  | Frame _ _ _ => []
  | Rectangle i pt1 pt2 color thick => (rectangles i ++ [(pt1, pt2, color, thick)])%list
  | Line i _ _ _ _ => rectangles i
  | PutText i _ _ _ _ _ _ => rectangles i
  | AddWeighted i _ _ _ _ => rectangles i
  end.

(** The texts drawn on an image, oldest first. *)
Fixpoint texts (img : Img) : list string :=
  match img with
  | Frame _ _ _ => []
  | Rectangle i _ _ _ _ => texts i
  | Line i _ _ _ _ => texts i
  | PutText i text _ _ _ _ _ => (texts i ++ [text])%list
  | AddWeighted i _ _ _ _ => texts i
  end.

(** [self.colors[i % len(self.colors)]]. *)
Definition box_color (i : nat) : Color :=
  nth (i mod List.length colors) colors (0, 0, 0).

(** The first key among ['box'], ['class_name'] and ['confidence'] that
    a detection lacks. *)
Definition missing_key (d : Detection) : option string :=
  match box d, class_name d, confidence d with
  | None, _, _ => Some "box"
  | Some _, None, _ => Some "class_name"
  | Some _, Some _, None => Some "confidence"
  | Some _, Some _, Some _ => None
  end.

(** The missing key of the first detection that lacks one. *)
Fixpoint first_missing_key (detections : list Detection) : option string :=
  match detections with
  | [] => None
  | d :: rest =>
      match missing_key d with
      | Some key => Some key
      | None => first_missing_key rest
      end
  end.

(** A detection that lacks the key ['confidence']. *)
Definition unscored (name : string) : Detection :=
  {| box := Some (100, 200, 50, 60);
     class_name := Some name;
     confidence := None;
     class_id := Some 1 |}.

(** ** Properties of the loop *)

(** An iteration that reaches the key handling: from [s], composing over
    [handed], it displays [shown] and leaves [s']. *)
Definition completes (L : Lib) (s : LoopState) (inp : IterInput)
           (handed shown : Img) (s' : LoopState) : Prop :=
  exists self1 self2,
    acquire s inp = Acquire (Some handed) /\
    update_history (ls_self s) (now_history inp)
                   (detect (ls_self s) (net_detect inp)) = Ok self1 /\
    compose L self1 (now_footer inp) handed (detect (ls_self s) (net_detect inp))
    = Ok shown /\
    calculate_fps self1 (time_end inp) (time_restart inp) = Ok self2 /\
    s' = {| ls_self := fst (handle_key self2 (wait_key inp)); ls_img := Some shown |}.

(** The state a run ends in, unless it ends in an exception. *)
Definition final_state (e : RunEnd) : option LoopState :=
  match e with
  | Running s => Some s
  | Stopped s => Some s
  | Crashed _ => None
  end.

(** The loop's [img] is bound whenever the session is paused. *)
Definition img_bound (s : LoopState) : Prop :=
  paused (ls_self s) = true -> ls_img s <> None.

(** A history entry as the loop writes them: it counts at least one
    object, as many as it names, and every name is a class name. *)
Definition entry_ok (names : list string) (e : HistoryEntry) : Prop :=
  1 <= count e /\
  count e = Z.of_nat (List.length (objects e)) /\
  Forall (fun name => In name names) (objects e).

(** A session one frame short of closing its first window. *)
Definition window_end : LoopState :=
  {| ls_self := set_fps_counter 29 (init default_classNames true 0%float);
     ls_img := None |}.

(** An iteration whose clock still shows the time the window started. *)
Definition stalled_clock : IterInput :=
  {| cap_read := Some camera_frame;
     net_detect := Detected [1; 3] [0.9; 0.8]%float [(10, 100, 50, 60); (300, 200, 80, 90)];
     now_history := nine_o_five;
     now_footer := nine_o_five;
     time_end := 0%float;
     time_restart := 0%float;
     wait_key := -1 |}.

(** An iteration that detects a person and a car. *)
Definition two_objects : IterInput :=
  {| cap_read := Some camera_frame;
     net_detect := Detected [1; 3] [0.9; 0.8]%float [(10, 100, 50, 60); (300, 200, 80, 90)];
     now_history := nine_o_five;
     now_footer := nine_o_five;
     time_end := 1%float;
     time_restart := 1%float;
     wait_key := -1 |}.

(** An iteration whose camera read fails. *)
Definition camera_gone : IterInput :=
  {| cap_read := None;
     net_detect := DetectError;
     now_history := nine_o_five;
     now_footer := nine_o_five;
     time_end := 1%float;
     time_restart := 1%float;
     wait_key := -1 |}.


(** ** The texts of a composed frame *)

(** The two texts of the label of a detection. *)
Definition label_texts (L : Lib) (d : Detection) : list string :=
  match class_name d, confidence d with
  | Some name, Some conf => [label_text L name; confidence_text L conf]
  | _, _ => []
  end.



(** ** The history along a run *)

(** The key [r] or [R], which clears the history. *)
Definition is_clear_key (waited : Z) : bool :=
  let key := Z.land waited 255 in
  (key =? ord "r")%Z || (key =? ord "R")%Z.

(** The entry an iteration has to record: one if it has detections. *)
Definition frame_entries (now : datetime) (detections : list Detection)
  : list HistoryEntry :=
  match detections with
  | [] => []
  | _ :: _ => [entry now detections]
  end.

(** The entries to record along a run, oldest first: one for each
    iteration that reaches the history update with detections. *)
Fixpoint entries_along (L : Lib) (s : LoopState) (inputs : list IterInput)
  : list HistoryEntry :=
  match inputs with
  | [] => []
  | inp :: rest =>
      let recorded := frame_entries (now_history inp)
                                    (detect (ls_self s) (net_detect inp)) in
      match run_iteration L s inp with
      | Continue s' _ _ => (recorded ++ entries_along L s' rest)%list
      | Break _ (Some _) => recorded
      | Break _ None => []
      | Uncaught _ => []
      end
  end.

(** Iteration number [i] of a run that sees one person per frame, with a
    clock that advances by a second per frame. *)
Definition person_input (i : nat) : IterInput :=
  {| cap_read := Some camera_frame;
     net_detect := Detected [1] [0.9%float] [(10, 100, 50, 60)];
     now_history := {| year := 2024; month := 5; day := 17;
                       hour := 9; minute := 5; second := 30;
                       microsecond := Z.of_nat i |};
     now_footer := nine_o_five;
     time_end := float_of_int (Z.of_nat (S i));
     time_restart := float_of_int (Z.of_nat (S i));
     wait_key := -1 |}.

(** ** The frames given to [cv2.imshow] *)



(** A detection whose float32 confidence times 100 falls on a rounding
    tie of the first decimal: the float32 product is 50.75. *)
Definition half_sure : Detection :=
  {| box := Some (100, 200, 50, 60);
     class_name := Some "person";
     confidence := Some 0.5074999928474426%float;
     class_id := Some 1 |}.

(** The label texts of a list of detections, in drawing order. *)
Definition texts_of_labels (L : Lib) (detections : list Detection) : list string :=
  flat_map (label_texts L) detections.
Example format_1f_exact_half : format_1f_exact 0.5%float = "0.5".
Proof. vm_compute. reflexivity. Qed.

Example format_1f_exact_rounds : format_1f_exact 0.55%float = "0.6".
Proof. vm_compute. reflexivity. Qed.

Example format_1f_exact_fps : format_1f_exact 29.97%float = "30.0".
Proof. vm_compute. reflexivity. Qed.

Example strftime_HMS_pads :
  strftime_HMS {| year := 2024; month := 5; day := 17;
                  hour := 9; minute := 5; second := 30; microsecond := 12 |}
  = "09:05:30".
Proof. reflexivity. Qed.

Example objects_text_ordered :
  objects_text ordered_lib [named "cat"; named "cat"; named "dog"]
  = Some "Detected: cat, dog".
Proof. reflexivity. Qed.

Example objects_text_demo :
  objects_text demo_lib [named "cat"; named "cat"; named "dog"]
  = Some "Detected: dog, cat".
Proof. reflexivity. Qed.

(** ** The footer listing *)

Lemma dedup_first_seen_In (l : list string) (x : string) :
  In x (dedup_first_seen l) <-> In x l.
Proof.
  induction l as [|a l IH]; simpl; [tauto|].
  rewrite filter_In, IH.
  destruct (String.eqb_spec x a) as [->|Hne]; simpl; intuition congruence.
Qed.

Lemma dedup_first_seen_NoDup (l : list string) : NoDup (dedup_first_seen l).
Proof.
  induction l as [|a l IH]; simpl; constructor.
  - rewrite filter_In, String.eqb_refl. simpl. intros [_ H]. discriminate.
  - now apply NoDup_filter.
Qed.

Lemma insert_by_In (slot : string -> Z) (a x : string) (l : list string) :
  In x (insert_by slot a l) <-> a = x \/ In x l.
Proof.
  induction l as [|b l IH]; simpl; [tauto|].
  destruct (slot a <? slot b)%Z; simpl; [tauto|].
  rewrite IH. tauto.
Qed.

Lemma insert_by_NoDup (slot : string -> Z) (a : string) (l : list string) :
  ~ In a l -> NoDup l -> NoDup (insert_by slot a l).
Proof.
  induction l as [|b l IH]; simpl; intros Hin Hnd.
  - constructor; [tauto|constructor].
  - destruct (slot a <? slot b)%Z.
    + constructor; simpl; assumption.
    + inversion Hnd as [|? ? Hb Hl]; subst.
      constructor.
      * rewrite insert_by_In. intros [->|H]; tauto.
      * apply IH; tauto.
Qed.

Lemma fold_insert_by_sound (slot : string -> Z) (l : list string) :
  NoDup l ->
  NoDup (fold_right (insert_by slot) [] l) /\
  (forall x, In x (fold_right (insert_by slot) [] l) <-> In x l).
Proof.
  induction l as [|a l IH]; simpl; intros Hnd.
  - split; [constructor|tauto].
  - inversion Hnd as [|? ? Ha Hl]; subst.
    destruct (IH Hl) as [IH1 IH2]. split.
    + apply insert_by_NoDup; [rewrite IH2|]; assumption.
    + intros x. rewrite insert_by_In, IH2. tauto.
Qed.

Lemma set_list_by_order (slot : string -> Z) : py_set_order (set_list_by slot).
Proof.
  intros l. unfold set_list_by.
  destruct (fold_insert_by_sound slot (dedup_first_seen l) (dedup_first_seen_NoDup l))
    as [H1 H2].
  split; [assumption|].
  intros x. rewrite H2. apply dedup_first_seen_In.
Qed.

Lemma dedup_first_seen_order : py_set_order dedup_first_seen.
Proof.
  intros l. split; [apply dedup_first_seen_NoDup|apply dedup_first_seen_In].
Qed.

Lemma py_set_order_Permutation (f : list string -> list string) (l : list string) :
  py_set_order f -> Permutation (f l) (dedup_first_seen l).
Proof.
  intros Hf. destruct (Hf l) as [Hnd Hin].
  apply NoDup_Permutation; [assumption|apply dedup_first_seen_NoDup|].
  intros x. rewrite Hin, dedup_first_seen_In. tauto.
Qed.

Lemma detected_objects_nonempty (dets : list Detection) :
  dets <> [] ->
  Forall (fun d => class_name d <> None) dets ->
  detected_objects dets <> [].
Proof.
  destruct dets as [|d dets]; [congruence|].
  intros _ Hall. inversion Hall as [|? ? Hd _]; subst.
  unfold detected_objects. simpl.
  destruct (class_name d); [discriminate|congruence].
Qed.

(** C1, as the code has it: when every detection carries a class name,
    the footer's second line lists the names in the order [list(set(...))]
    yields them. That listing has each distinct class name exactly once (it
    is a permutation of the first-seen deduplication, in an order the set
    decides), shows at most 4 names, and ends in the ellipsis exactly when
    more than 4 distinct names exist; with statistics on, this text is the
    last thing the footer pass draws. *)
Theorem footer_lists_distinct_names (L : Lib) (dets : list Detection) :
  py_set_order (set_list L) ->
  dets <> [] ->
  Forall (fun d => class_name d <> None) dets ->
  let names := detected_objects dets in
  let listed := set_list L names in
  let text := "Detected: " ++ String.concat ", " (firstn 4 listed) in
  let line := if (4 <? Z.of_nat (List.length listed))%Z then text ++ "..." else text in
  objects_text L dets = Some line /\
  Permutation listed (dedup_first_seen names) /\
  (List.length (firstn 4 listed) <= 4)%nat /\
  ((4 < List.length listed)%nat <-> (4 < List.length (dedup_first_seen names))%nat) /\
  (forall self now img, show_stats self = true ->
     exists below,
       draw_footer_stats L self now img dets
       = PutText below line (10, fst (shape img) - 20) font 0.5%float (255, 255, 100) 1).
Proof.
  intros Hset Hne Hall names listed text line.
  assert (Hperm : Permutation listed (dedup_first_seen names))
    by (apply py_set_order_Permutation; assumption).
  assert (Htext : objects_text L dets = Some line).
  { unfold objects_text. fold names.
    pose proof (detected_objects_nonempty dets Hne Hall) as Hnames. fold names in Hnames.
    destruct names as [|n ns] eqn:E; [congruence|]. reflexivity. }
  repeat split.
  - exact Htext.
  - exact Hperm.
  - apply firstn_le_length.
  - rewrite (Permutation_length Hperm). tauto.
  - rewrite (Permutation_length Hperm). tauto.
  - intros self now img Hshow.
    unfold draw_footer_stats. rewrite Hshow. simpl negb. cbv iota.
    destruct (shape img) as [height width] eqn:Eshape.
    cbv zeta. rewrite Htext. simpl fst. eexists. reflexivity.
Qed.

Lemma footer_lists_distinct_names_witness :
  objects_text demo_lib [named "cat"; named "cat"; named "dog"]
  = Some "Detected: dog, cat"
  /\ Permutation ["dog"; "cat"] ["cat"; "dog"].
Proof.
  destruct (footer_lists_distinct_names demo_lib
              [named "cat"; named "cat"; named "dog"]
              (set_list_by_order demo_slot)
              ltac:(discriminate)
              ltac:(repeat constructor; discriminate))
    as (Htext & Hperm & _).
  split; [exact Htext|exact Hperm].
Defined.

(** C1 as stated fails: on a run whose set iterates "dog" before "cat",
    the detections cat, cat, dog are listed as "dog, cat", which is not
    the first-seen order "cat, dog" the claim requires. *)
Lemma footer_order_counterexample :
  py_set_order (set_list demo_lib) /\
  objects_text demo_lib [named "cat"; named "cat"; named "dog"]
  = Some "Detected: dog, cat" /\
  footer_listing_spec (detected_objects [named "cat"; named "cat"; named "dog"])
  = "Detected: cat, dog" /\
  objects_text demo_lib [named "cat"; named "cat"; named "dog"]
  <> Some (footer_listing_spec
             (detected_objects [named "cat"; named "cat"; named "dog"])).
Proof.
  split; [exact (set_list_by_order demo_slot)|].
  split; [reflexivity|]. split; [reflexivity|].
  vm_compute. discriminate.
Qed.

(** ** The composed frame and the wall clock *)

Lemma draw_footer_stats_clock (L : Lib) (self : ObjectDetectionUI) (now1 now2 : datetime)
      (img : Img) (dets : list Detection) :
  show_stats self = false \/ strftime_HMS now1 = strftime_HMS now2 ->
  draw_footer_stats L self now1 img dets = draw_footer_stats L self now2 img dets.
Proof.
  unfold draw_footer_stats. intros [Hoff|Hsame].
  - rewrite Hoff. reflexivity.
  - rewrite Hsame. reflexivity.
Qed.

Lemma append_same_prefix (p a b : string) : p ++ a = p ++ b -> a = b.
Proof.
  induction p as [|c p IH]; simpl; intros H; [assumption|].
  injection H as H. auto.
Qed.

Lemma draw_footer_stats_tells_time (L : Lib) (self : ObjectDetectionUI)
      (now1 now2 : datetime) (img : Img) (dets : list Detection) :
  show_stats self = true ->
  draw_footer_stats L self now1 img dets = draw_footer_stats L self now2 img dets ->
  strftime_HMS now1 = strftime_HMS now2.
Proof.
  unfold draw_footer_stats. intros Hon. rewrite Hon. simpl negb. cbv iota.
  destruct (shape img) as [height width]. cbv zeta.
  destruct (objects_text L dets) as [text|]; intros H; injection H as H.
  - repeat apply append_same_prefix in H. simpl in H. congruence.
  - repeat apply append_same_prefix in H. simpl in H. congruence.
Qed.

Lemma shape_draw_footer_stats (L : Lib) (self : ObjectDetectionUI) (now : datetime)
      (img : Img) (dets : list Detection) :
  shape (draw_footer_stats L self now img dets) = shape img.
Proof.
  unfold draw_footer_stats. destruct (negb (show_stats self)); [reflexivity|].
  destruct (shape img) as [height width] eqn:E. cbv zeta.
  destruct (objects_text L dets); simpl; assumption.
Qed.

(** C2, as the code has it: within one process (one library [L], hence
    one set iteration order) the composed frame is a function of the
    frame, the detections, the session state and the wall-clock reading
    taken by the footer, and of the clock only through its HH:MM:SS text.
    Two invocations on the same triple give the same frame when the
    statistics are off or when both happen within the same second; with
    the statistics on, invocations whose clocks show different seconds
    give different frames. *)
Theorem compose_deterministic_up_to_clock (L : Lib) (self : ObjectDetectionUI)
        (img : Img) (dets : list Detection) (now1 now2 : datetime) :
  (show_stats self = false \/ strftime_HMS now1 = strftime_HMS now2 ->
   compose L self now1 img dets = compose L self now2 img dets) /\
  (show_stats self = true ->
   strftime_HMS now1 <> strftime_HMS now2 ->
   forall out, compose L self now1 img dets = Ok out ->
               compose L self now2 img dets <> Ok out).
Proof.
  unfold compose. split.
  - intros H.
    destruct (draw_enhanced_bounding_boxes L (draw_header L self img) dets) as [boxed|e];
      simpl; [|reflexivity].
    rewrite (draw_footer_stats_clock L self now1 now2 boxed dets H). reflexivity.
  - intros Hon Hdiff out.
    destruct (draw_enhanced_bounding_boxes L (draw_header L self img) dets) as [boxed|e];
      simpl; [|discriminate].
    intros H1 H2. apply Hdiff.
    apply (draw_footer_stats_tells_time L self now1 now2 boxed dets Hon).
    rewrite <- H1 in H2. injection H2 as H2.
    rewrite !shape_draw_footer_stats in H2.
    destruct (paused self); [|congruence].
    destruct (shape boxed) as [height width].
    injection H2 as H2. congruence.
Qed.

Lemma compose_deterministic_up_to_clock_witness :
  compose demo_lib (init default_classNames true 0%float)
          {| year := 2024; month := 5; day := 17;
             hour := 9; minute := 5; second := 30; microsecond := 1 |}
          (Frame 720 1280 []) [named "cat"]
  = compose demo_lib (init default_classNames true 0%float)
            {| year := 2024; month := 5; day := 17;
               hour := 9; minute := 5; second := 30; microsecond := 999 |}
            (Frame 720 1280 []) [named "cat"].
Proof.
  apply (proj1 (compose_deterministic_up_to_clock demo_lib
                  (init default_classNames true 0%float) (Frame 720 1280 [])
                  [named "cat"] _ _)).
  right. reflexivity.
Defined.

(** C2 as stated fails: the same frame, detections and session state,
    composed at 09:05:30 and at 09:05:31, give two different frames. *)
Lemma compose_clock_counterexample :
  compose demo_lib (init default_classNames true 0%float)
          {| year := 2024; month := 5; day := 17;
             hour := 9; minute := 5; second := 30; microsecond := 0 |}
          (Frame 720 1280 []) []
  <> compose demo_lib (init default_classNames true 0%float)
             {| year := 2024; month := 5; day := 17;
                hour := 9; minute := 5; second := 31; microsecond := 0 |}
             (Frame 720 1280 []) [].
Proof.
  vm_compute. intros H. injection H as H. discriminate H.
Qed.

(** ** The label of a detection *)

(** C3, evaluated on the code: for a detection whose box starts at or
    above row 90, the bottom edge of the label background is row 90 and
    its top edge is row [90 - (max(label_h, conf_h) + 15)]: with text
    heights that are not negative this is row 75 or higher up, inside the
    header band (rows 0 to 80) the comment in the source wants the label
    kept below. The clamp [max(y, 90)] bounds the bottom edge of the
    label, not its top edge. *)
Theorem label_background_reaches_header (L : Lib) (img : Img) (i : nat)
        (x y w h : Z) (name : string) (conf : float) (cid : Z) :
  y <= 90 ->
  0 <= snd (getTextSize L (label_text L name) font_scale thickness) ->
  0 <= snd (getTextSize L (confidence_text L conf) 0.5%float 1) ->
  let d := {| box := Some (x, y, w, h); class_name := Some name;
              confidence := Some conf; class_id := Some cid |} in
  let background := label_background L (x, y, w, h) name conf in
  let top := snd (fst background) in
  let bottom := snd (snd background) in
  bottom = 90 /\
  top <= 75 /\
  top < 80 /\
  exists below color label_org,
    draw_detection L img i d
    = Ok (PutText
            (PutText
               (Rectangle (Rectangle below (fst background) (snd background) color (-1))
                          (fst background) (snd background) (255, 255, 255) 1)
               (label_text L name) label_org font font_scale (255, 255, 255) thickness)
            (confidence_text L conf) (x + 8, 90 - 3) font 0.5%float (255, 255, 255) 1).
Proof.
  intros Hy Hl Hc d background top bottom.
  unfold draw_detection, d, top, bottom, background. simpl getitem. simpl bind.
  unfold label_background.
  destruct (getTextSize L (label_text L name) font_scale thickness) as [label_w label_h].
  destruct (getTextSize L (confidence_text L conf) 0.5%float 1) as [conf_w conf_h].
  simpl in Hl, Hc. unfold label_y, label_bg_height.
  rewrite (Z.max_r y 90 Hy). cbv beta iota. cbn [snd fst].
  split; [reflexivity|]. split; [lia|]. split; [lia|].
  do 3 eexists. reflexivity.
Qed.

Lemma label_background_reaches_header_witness :
  snd (snd (label_background demo_lib (100, 50, 200, 150) "person" 0.9%float)) = 90 /\
  snd (fst (label_background demo_lib (100, 50, 200, 150) "person" 0.9%float)) < 80.
Proof.
  destruct (label_background_reaches_header demo_lib (Frame 720 1280 []) 0
              100 50 200 150 "person" 0.9%float 1
              ltac:(lia) ltac:(vm_compute; discriminate) ltac:(vm_compute; discriminate))
    as (Hbottom & _ & Htop & _).
  split; [exact Hbottom|exact Htop].
Defined.

(** The failing input of C3: a box whose top edge is at row 50. *)
Example label_background_at_row_50 :
  label_background demo_lib (100, 50, 200, 150) "person" 0.9%float
  = ((100, 53), (189, 90)).
Proof. vm_compute. reflexivity. Qed.

(** ** From detector results to detections *)

Lemma append_detections_filter (names : list string) (results : list (Z * float * Box))
      (acc : list Detection) :
  append_detections names acc results
  = (acc ++ map (make_detection names) (filter (keeps names) results))%list.
Proof.
  revert acc. induction results as [|[[classId conf] b] rest IH]; intros acc; simpl.
  - now rewrite app_nil_r.
  - unfold keeps at 1. simpl fst.
    destruct (valid_class_id names classId); rewrite IH; [|reflexivity].
    rewrite <- app_assoc. reflexivity.
Qed.

Lemma detect_filter (self : ObjectDetectionUI) (classIds : list Z) (confs : list float)
      (bbox : list Box) :
  model_loaded self = true -> paused self = false ->
  detect self (Detected classIds confs bbox)
  = map (make_detection (classNames self))
        (filter (keeps (classNames self)) (zip3 classIds confs bbox)).
Proof.
  intros Hm Hp. unfold detect. rewrite Hm, Hp. simpl.
  destruct classIds as [|c cs]; [reflexivity|].
  simpl negb. cbv iota. now rewrite append_detections_filter.
Qed.

Lemma detect_complete (self : ObjectDetectionUI) (r : DetectResult) :
  Forall complete (detect self r).
Proof.
  unfold detect.
  destruct (model_loaded self && negb (paused self)); [|constructor].
  destruct r as [|classIds confs bbox]; [constructor|].
  destruct (negb (Nat.eqb (List.length classIds) 0)); [|constructor].
  rewrite append_detections_filter. simpl.
  apply Forall_forall. intros d Hd.
  apply in_map_iff in Hd. destruct Hd as ([[c f] b] & <- & _).
  repeat split; discriminate.
Qed.

Lemma class_names_of_complete (dets : list Detection) :
  Forall complete dets -> class_names_of dets = Ok (detected_objects dets).
Proof.
  induction 1 as [|d dets (_ & Hn & _) _ IH]; [reflexivity|].
  unfold detected_objects. simpl.
  destruct (class_name d) as [name|] eqn:E; [|congruence].
  simpl. rewrite IH. reflexivity.
Qed.

Lemma draw_detection_complete (L : Lib) (img : Img) (i : nat) (d : Detection) :
  complete d -> exists out, draw_detection L img i d = Ok out /\ shape out = shape img.
Proof.
  intros (Hb & Hn & Hc). unfold draw_detection.
  destruct (box d) as [[[[x y] w] h]|]; [|congruence].
  destruct (class_name d) as [name|]; [|congruence].
  destruct (confidence d) as [conf|]; [|congruence].
  simpl.
  destruct (getTextSize L (label_text L name) font_scale thickness) as [label_w label_h].
  destruct (getTextSize L (confidence_text L conf) 0.5%float 1) as [conf_w conf_h].
  destruct (label_background L (x, y, w, h) name conf) as [pt1 pt2].
  eexists. split; reflexivity.
Qed.

Lemma draw_detections_from_complete (L : Lib) (dets : list Detection) :
  Forall complete dets ->
  forall i img, exists out,
    draw_detections_from L i img dets = Ok out /\ shape out = shape img.
Proof.
  induction 1 as [|d dets Hd _ IH]; intros i img; simpl.
  - eexists. split; reflexivity.
  - destruct (draw_detection_complete L img i d Hd) as (img' & -> & Hs).
    simpl. destruct (IH (S i) img') as (out & -> & Hs').
    eexists. split; [reflexivity|congruence].
Qed.

Lemma draw_enhanced_bounding_boxes_complete (L : Lib) (img : Img) (dets : list Detection) :
  Forall complete dets ->
  exists out, draw_enhanced_bounding_boxes L img dets = Ok out /\ shape out = shape img.
Proof.
  intros H. destruct dets as [|d dets].
  - eexists. split; reflexivity.
  - apply (draw_detections_from_complete L (d :: dets) H 0 img).
Qed.

Lemma record_complete (history : list HistoryEntry) (now : datetime)
      (dets : list Detection) :
  Forall complete dets ->
  record history now dets
  = Ok (match dets with
        | [] => history
        | _ :: _ =>
            let history' :=
              (history ++ [ {| time := now;
                               count := Z.of_nat (List.length dets);
                               objects := detected_objects dets |} ])%list in
            if (100 <? Z.of_nat (List.length history'))%Z then tl history' else history'
        end).
Proof.
  intros H. unfold record. destruct dets as [|d dets]; [reflexivity|].
  rewrite (class_names_of_complete _ H). reflexivity.
Qed.

(** C10: with the model loaded and the loop not paused, the detections of
    an iteration are the detector's triples whose [classId - 1] indexes
    [classNames], in the detector's order, each turned into a dictionary
    naming [classNames[classId - 1]]; a triple outside that range leaves
    no trace (the detections are those of the results without it), and
    neither the history update nor the box pass raises on the result. *)
Theorem detect_drops_out_of_range_class_ids (L : Lib) (self : ObjectDetectionUI)
        (classIds : list Z) (confs : list float) (bbox : list Box) :
  model_loaded self = true -> paused self = false ->
  let names := classNames self in
  let results := zip3 classIds confs bbox in
  let detections := detect self (Detected classIds confs bbox) in
  detections
  = map (make_detection names)
        (filter (fun r => (0 <=? fst (fst r) - 1)%Z
                          && (fst (fst r) - 1 <? Z.of_nat (List.length names))%Z)
                results) /\
  (forall classId conf b,
      In (classId, conf, b) results ->
      0 <= classId - 1 < Z.of_nat (List.length names) ->
      exists name,
        nth_error names (Z.to_nat (classId - 1)) = Some name /\
        In {| box := Some b; class_name := Some name;
              confidence := Some conf; class_id := Some classId |} detections) /\
  (forall d, In d detections ->
      exists classId conf b,
        In (classId, conf, b) results /\
        0 <= classId - 1 < Z.of_nat (List.length names) /\
        d = make_detection names (classId, conf, b)) /\
  (forall classId conf b,
      ~ (0 <= classId - 1 < Z.of_nat (List.length names)) ->
      detect self (Detected (classId :: classIds) (conf :: confs) (b :: bbox))
      = detections) /\
  (forall now img,
      (exists self', update_history self now detections = Ok self') /\
      (exists out, draw_enhanced_bounding_boxes L img detections = Ok out)).
Proof.
  intros Hm Hp names results detections.
  assert (Hd : detections = map (make_detection names) (filter (keeps names) results))
    by (apply detect_filter; assumption).
  assert (Hvalid : forall c, valid_class_id names c = true
                             <-> 0 <= c - 1 < Z.of_nat (List.length names)).
  { intros c. unfold valid_class_id. rewrite andb_true_iff, Z.leb_le, Z.ltb_lt. tauto. }
  split; [exact Hd|]. split; [|split; [|split]].
  - intros classId conf b Hin Hrange.
    destruct (nth_error names (Z.to_nat (classId - 1))) as [name|] eqn:E.
    + exists name. split; [reflexivity|].
      rewrite Hd. apply in_map_iff. exists (classId, conf, b). split.
      * simpl. now rewrite (nth_error_nth _ _ _ E).
      * apply filter_In. split; [assumption|]. unfold keeps. simpl. now apply Hvalid.
    + apply nth_error_None in E. lia.
  - intros d Hin. rewrite Hd in Hin. apply in_map_iff in Hin.
    destruct Hin as ([[c f] b] & <- & Hin). apply filter_In in Hin.
    destruct Hin as [Hin Hk]. exists c, f, b.
    split; [assumption|]. split; [|reflexivity]. now apply Hvalid.
  - intros classId conf b Hout.
    rewrite detect_filter by assumption. simpl zip3. simpl filter.
    unfold keeps at 1. simpl fst.
    fold names.
    destruct (valid_class_id names classId) eqn:E;
      [apply Hvalid in E; contradiction|].
    symmetry. exact Hd.
  - intros now img.
    pose proof (detect_complete self (Detected classIds confs bbox)) as Hc.
    fold detections in Hc. split.
    + unfold update_history. rewrite (record_complete _ _ _ Hc). simpl. eexists. reflexivity.
    + destruct (draw_enhanced_bounding_boxes_complete L img detections Hc) as (out & -> & _).
      eexists. reflexivity.
Qed.

Lemma detect_drops_out_of_range_class_ids_witness :
  detect (init default_classNames true 0%float)
         (Detected [1; 0; 3; 6] [0.9; 0.8; 0.7; 0.6]%float
                   [(10, 100, 50, 60); (1, 2, 3, 4); (300, 200, 80, 90); (5, 6, 7, 8)])
  = [ {| box := Some (10, 100, 50, 60); class_name := Some "person";
         confidence := Some 0.9%float; class_id := Some 1 |};
      {| box := Some (300, 200, 80, 90); class_name := Some "car";
         confidence := Some 0.7%float; class_id := Some 3 |} ].
Proof.
  rewrite (proj1 (detect_drops_out_of_range_class_ids demo_lib
                    (init default_classNames true 0%float)
                    [1; 0; 3; 6] [0.9; 0.8; 0.7; 0.6]%float
                    [(10, 100, 50, 60); (1, 2, 3, 4); (300, 200, 80, 90); (5, 6, 7, 8)]
                    eq_refl eq_refl)).
  reflexivity.
Defined.

(** C4, as the code has it: the loop validates the class id and nothing
    else. A detector result whose class id is in range is kept whatever
    its box and its confidence are, so a box of width or height at most 0
    and a confidence outside [0,1] are rendered and recorded like any
    other; what is treated as empty, without error, is a result list whose
    class ids are all out of range, and a detector call that raises: then
    there are no detections, the history is unchanged and the box pass
    returns its image untouched. *)
Theorem detect_validates_class_id_only (L : Lib) (self : ObjectDetectionUI) :
  model_loaded self = true -> paused self = false ->
  (forall classId conf b classIds confs bbox,
      0 <= classId - 1 < Z.of_nat (List.length (classNames self)) ->
      detect self (Detected (classId :: classIds) (conf :: confs) (b :: bbox))
      = {| box := Some b;
           class_name := Some (nth (Z.to_nat (classId - 1)) (classNames self) "");
           confidence := Some conf;
           class_id := Some classId |}
        :: detect self (Detected classIds confs bbox)) /\
  (forall classIds confs bbox now img,
      Forall (fun c => ~ (0 <= c - 1 < Z.of_nat (List.length (classNames self)))) classIds ->
      let detections := detect self (Detected classIds confs bbox) in
      detections = [] /\
      update_history self now detections = Ok self /\
      draw_enhanced_bounding_boxes L img detections = Ok img) /\
  (forall now img,
      let detections := detect self DetectError in
      detections = [] /\
      update_history self now detections = Ok self /\
      draw_enhanced_bounding_boxes L img detections = Ok img).
Proof.
  intros Hm Hp.
  assert (Hself : set_detection_history (detection_history self) self = self)
    by (destruct self; reflexivity).
  split; [|split].
  - intros classId conf b classIds confs bbox Hrange.
    rewrite !detect_filter by assumption. simpl zip3. simpl filter.
    unfold keeps at 1. simpl fst.
    replace (valid_class_id (classNames self) classId) with true; [reflexivity|].
    symmetry. unfold valid_class_id. rewrite andb_true_iff, Z.leb_le, Z.ltb_lt. lia.
  - intros classIds confs bbox now img Hall detections.
    assert (Hnil : detections = []).
    { unfold detections. rewrite detect_filter by assumption.
      replace (filter (keeps (classNames self)) (zip3 classIds confs bbox)) with
        (@nil (Z * float * Box)); [reflexivity|].
      symmetry. clear detections. revert confs bbox.
      induction Hall as [|c cs Hc _ IH]; intros confs bbox; [reflexivity|].
      destruct confs as [|f fs]; [reflexivity|]. destruct bbox as [|b bs]; [reflexivity|].
      simpl. unfold keeps at 1. simpl fst.
      replace (valid_class_id (classNames self) c) with false; [apply IH|].
      symmetry. apply not_true_is_false. unfold valid_class_id.
      rewrite andb_true_iff, Z.leb_le, Z.ltb_lt. lia. }
    rewrite Hnil. unfold update_history. simpl. rewrite Hself. auto.
  - intros now img detections.
    assert (Hnil : detections = []).
    { unfold detections, detect. rewrite Hm, Hp. reflexivity. }
    rewrite Hnil. unfold update_history. simpl. rewrite Hself. auto.
Qed.

Lemma detect_validates_class_id_only_witness :
  detect (init default_classNames true 0%float)
         (Detected [1] [1.5%float] [(10, 10, 0, -5)])
  = [ {| box := Some (10, 10, 0, -5); class_name := Some "person";
         confidence := Some 1.5%float; class_id := Some 1 |} ].
Proof.
  exact (proj1 (detect_validates_class_id_only demo_lib
                  (init default_classNames true 0%float) eq_refl eq_refl)
           1 1.5%float (10, 10, 0, -5) [] [] []
           ltac:(simpl; lia)).
Defined.

(** C4 as stated fails: the detector result with class id 1, confidence
    1.5 and a box of width 0 and height -5 is not dropped: it becomes a
    detection, the history gains an entry for it, and the box pass draws
    its label ("150.0%"). *)
Lemma malformed_detection_counterexample :
  let self := init default_classNames true 0%float in
  let now := {| year := 2024; month := 5; day := 17;
                hour := 9; minute := 5; second := 30; microsecond := 0 |} in
  let detections := detect self (Detected [1] [1.5%float] [(10, 10, 0, -5)]) in
  detections
  = [ {| box := Some (10, 10, 0, -5); class_name := Some "person";
         confidence := Some 1.5%float; class_id := Some 1 |} ] /\
  record (detection_history self) now detections
  = Ok [ {| time := now; count := 1; objects := ["person"] |} ] /\
  exists below,
    draw_enhanced_bounding_boxes demo_lib (Frame 720 1280 []) detections
    = Ok (PutText below "150.0%" (18, 87) font 0.5%float (255, 255, 255) 1).
Proof.
  split; [reflexivity|]. split; [reflexivity|].
  eexists. vm_compute. reflexivity.
Qed.

(** ** The threshold under key presses *)

Lemma reachable_thresholds_closed :
  Forall (fun t => threshold_ok t = true /\
                   In (increase_threshold t) reachable_thresholds /\
                   In (decrease_threshold t) reachable_thresholds)
         reachable_thresholds.
Proof.
  unfold reachable_thresholds.
  repeat (apply Forall_cons;
          [split; [vm_compute; reflexivity|split; find_float]|]).
  apply Forall_nil.
Qed.

Lemma reachable_step (t : float) :
  In t reachable_thresholds ->
  threshold_ok t = true /\
  In (increase_threshold t) reachable_thresholds /\
  In (decrease_threshold t) reachable_thresholds.
Proof.
  intros H. exact (proj1 (Forall_forall _ _) reachable_thresholds_closed t H).
Qed.

Lemma handle_key_thres (self : ObjectDetectionUI) (key : Z) :
  thres (fst (handle_key self key)) = thres self \/
  thres (fst (handle_key self key)) = increase_threshold (thres self) \/
  thres (fst (handle_key self key)) = decrease_threshold (thres self).
Proof.
  unfold handle_key.
  repeat match goal with
         | |- context [if ?b then _ else _] => destruct b
         end; simpl; auto.
Qed.

Lemma press_app (self : ObjectDetectionUI) (keys : list Z) (key : Z) :
  press self (keys ++ [key]) = fst (handle_key (press self keys) key).
Proof. unfold press. now rewrite fold_left_app. Qed.

Lemma press_reachable (self : ObjectDetectionUI) (keys : list Z) :
  In (thres self) reachable_thresholds ->
  In (thres (press self keys)) reachable_thresholds.
Proof.
  intros H0. induction keys as [|key keys IH] using rev_ind; [exact H0|].
  rewrite press_app.
  destruct (reachable_step _ IH) as (_ & Hup & Hdown).
  destruct (handle_key_thres (press self keys) key) as [->|[->| ->]]; assumption.
Qed.

Lemma init_reachable (names : list string) (loaded : bool) (t0 : float) :
  In (thres (init names loaded t0)) reachable_thresholds.
Proof. simpl thres. unfold reachable_thresholds. find_float. Qed.

Lemma reachable_steps_close :
  Forall (fun t =>
            (close (increase_threshold t - t) 0.05 = true \/
             (close t 1.0 = true /\ increase_threshold t = 1.0%float)) /\
            (close (t - decrease_threshold t) 0.05 = true \/
             (close t 0.1 = true /\ decrease_threshold t = 0.1%float)))
         reachable_thresholds.
Proof.
  unfold reachable_thresholds.
  repeat (apply Forall_cons;
          [split; vm_compute;
           first [left; reflexivity | right; split; reflexivity]|]).
  apply Forall_nil.
Qed.

(** C5: starting from 0.5, after every sequence of keys the threshold is
    a double in [0.1, 1.0], and so it is after one more [+], [=] or [-].
    The threshold is a double and 0.05 is not one, so a change "by
    exactly 0.05" and a threshold "at the boundary" are read up to the
    rounding of doubles, within 1e-15: each [+] (and [=]) raises the
    threshold by 0.05, except when the threshold is at 1.0, where the
    result is 1.0; each [-] lowers it by 0.05, except when the threshold
    is at 0.1, where the result is 0.1. The handling of a key is a total
    function: no key raises. *)
Theorem threshold_clamp_and_step (names : list string) (loaded : bool) (t0 : float)
        (keys : list Z) :
  let self := press (init names loaded t0) keys in
  let t := thres self in
  let up := thres (fst (handle_key self (ord "+"))) in
  let down := thres (fst (handle_key self (ord "-"))) in
  in_range t = true /\
  in_range up = true /\
  in_range down = true /\
  thres (fst (handle_key self (ord "="))) = up /\
  (close (up - t) 0.05 = true \/ (close t 1.0 = true /\ up = 1.0%float)) /\
  (close (t - down) 0.05 = true \/ (close t 0.1 = true /\ down = 0.1%float)).
Proof.
  intros self t up down.
  assert (Ht : In t reachable_thresholds)
    by (apply press_reachable, init_reachable).
  destruct (reachable_step t Ht) as (Hok & Hup & Hdown).
  assert (Eup : up = increase_threshold t) by reflexivity.
  assert (Edown : down = decrease_threshold t) by reflexivity.
  destruct (reachable_step _ Hup) as (Hokup & _).
  destruct (reachable_step _ Hdown) as (Hokdown & _).
  unfold threshold_ok in Hok, Hokup, Hokdown.
  rewrite !andb_true_iff in Hok, Hokup, Hokdown.
  destruct (proj1 (Forall_forall _ _) reachable_steps_close t Ht) as [Hsu Hsd].
  rewrite Eup, Edown.
  repeat match goal with |- _ /\ _ => split end; tauto || reflexivity.
Qed.

(** Why the steps are compared within a tolerance: eight presses of [-]
    take the threshold from 0.5 to the double 0.10000000000000007, and
    the ninth takes it to 0.1. *)
Example threshold_after_eight_minus :
  let self := press (init default_classNames true 0%float) (repeat (ord "-") 8) in
  thres self = 0.10000000000000007%float /\
  thres (fst (handle_key self (ord "-"))) = 0.1%float /\
  close (thres self) 0.1 = true.
Proof. vm_compute. repeat split. Qed.

Example threshold_after_ten_plus :
  thres (press (init default_classNames true 0%float) (repeat (ord "+") 10)) = 1.0%float.
Proof. vm_compute. reflexivity. Qed.

(** ** The detection history *)

Lemma lastn_all {A : Type} (n : nat) (l : list A) :
  (List.length l <= n)%nat -> lastn n l = l.
Proof.
  intros H. unfold lastn. replace (List.length l - n)%nat with 0%nat by lia. reflexivity.
Qed.

Lemma lastn_length {A : Type} (n : nat) (l : list A) :
  (List.length (lastn n l) <= n)%nat.
Proof. unfold lastn. rewrite length_skipn. lia. Qed.

Lemma lastn_drop_head {A : Type} (n : nat) (a : A) (l : list A) :
  (n <= List.length l)%nat -> lastn n (a :: l) = lastn n l.
Proof.
  intros H. unfold lastn. simpl List.length.
  replace (S (List.length l) - n)%nat with (S (List.length l - n)) by lia.
  reflexivity.
Qed.

Lemma record_step (history : list HistoryEntry) (now : datetime)
      (dets : list Detection) (later : list HistoryEntry) :
  Forall complete dets ->
  (List.length history <= 100)%nat ->
  exists history',
    record history now dets = Ok history' /\
    (List.length history' <= 100)%nat /\
    lastn 100 (history' ++ later)
    = lastn 100 (history ++ entries_of [(now, dets)] ++ later).
Proof.
  intros Hc Hlen. rewrite (record_complete _ _ _ Hc).
  destruct dets as [|d dets].
  - exists history. auto.
  - fold (entry now (d :: dets)). cbv zeta.
    change (history ++ entries_of [(now, d :: dets)] ++ later)%list
      with (history ++ ([entry now (d :: dets)] ++ later))%list.
    rewrite app_assoc.
    remember (history ++ [entry now (d :: dets)])%list as appended eqn:Ea.
    assert (Hl : List.length appended = S (List.length history))
      by (subst appended; rewrite length_app; simpl; lia).
    destruct (100 <? Z.of_nat (List.length appended))%Z eqn:E.
    + apply Z.ltb_lt in E.
      destruct appended as [|e h']; [simpl in Hl; lia|].
      simpl in Hl. exists h'. split; [reflexivity|]. split; [lia|].
      simpl app. rewrite lastn_drop_head; [reflexivity|].
      rewrite length_app. simpl List.length in E. lia.
    + apply Z.ltb_ge in E.
      exists appended. split; [reflexivity|]. split; [lia|reflexivity].
Qed.

Lemma record_all_lastn (frames : list (datetime * list Detection)) :
  Forall (fun f => Forall complete (snd f)) frames ->
  forall history, (List.length history <= 100)%nat ->
  exists final,
    record_all history frames = Ok final /\
    final = lastn 100 (history ++ entries_of frames).
Proof.
  induction 1 as [|[now dets] frames Hc _ IH]; intros history Hlen.
  - exists history. split; [reflexivity|].
    simpl. rewrite app_nil_r. symmetry. now apply lastn_all.
  - simpl in Hc.
    destruct (record_step history now dets (entries_of frames) Hc Hlen)
      as (history' & Hrec & Hlen' & Hlast).
    destruct (IH history' Hlen') as (final & Hall & Hfinal).
    exists final. split.
    + simpl. rewrite Hrec. simpl. exact Hall.
    + rewrite Hfinal, Hlast. unfold entries_of. simpl flat_map.
      now rewrite app_nil_r.
Qed.

Lemma handle_key_history (self : ObjectDetectionUI) (waited : Z) :
  detection_history (fst (handle_key self waited)) = detection_history self \/
  detection_history (fst (handle_key self waited)) = [].
Proof.
  unfold handle_key.
  repeat match goal with
         | |- context [if ?b then _ else _] => destruct b
         end; simpl; auto.
Qed.

Lemma calculate_fps_history (self self' : ObjectDetectionUI) (e r : float) :
  calculate_fps self e r = Ok self' ->
  detection_history self' = detection_history self.
Proof.
  unfold calculate_fps. destruct (30 <=? fps_counter self + 1)%Z.
  - destruct (py_truediv _ _); [|discriminate]. simpl. intros H. now injection H as <-.
  - intros H. now injection H as <-.
Qed.

(** The history stays within 100 entries along the loop itself, whatever
    the camera, the detector, the clocks and the keyboard give. *)
Lemma run_iteration_history_bounded (L : Lib) (s s' : LoopState) (inp : IterInput)
      (handed shown : Img) :
  (List.length (detection_history (ls_self s)) <= 100)%nat ->
  run_iteration L s inp = Continue s' handed shown ->
  (List.length (detection_history (ls_self s')) <= 100)%nat.
Proof.
  intros Hlen H. unfold run_iteration in H.
  destruct (acquire s inp) as [|img]; [discriminate H|].
  destruct (update_history _ _ _) as [self|e] eqn:Hu; [|discriminate H].
  destruct img as [img|]; [|discriminate H].
  destruct (compose L self _ img _) as [out|e]; [|discriminate H].
  destruct (calculate_fps self _ _) as [self2|e] eqn:Hf; [|discriminate H].
  pose proof (handle_key_history self2 (wait_key inp)) as Hk.
  destruct (handle_key self2 (wait_key inp)) as [self3 quit].
  destruct quit; [discriminate H|].
  injection H as <- _ _. simpl in *.
  destruct Hk as [-> | ->]; [|simpl; lia].
  rewrite (calculate_fps_history _ _ _ _ Hf).
  unfold update_history in Hu.
  destruct (record_step (detection_history (ls_self s)) (now_history inp)
              (detect (ls_self s) (net_detect inp)) []
              (detect_complete _ _) Hlen) as (h & Hr & Hh & _).
  rewrite Hr in Hu. simpl in Hu. injection Hu as <-. exact Hh.
Qed.

Lemma run_history_bounded (L : Lib) (inputs : list IterInput) :
  forall s frames s',
    (List.length (detection_history (ls_self s)) <= 100)%nat ->
    run L s inputs = (frames, Running s') ->
    (List.length (detection_history (ls_self s')) <= 100)%nat.
Proof.
  induction inputs as [|inp rest IH]; intros s frames s' Hlen H; simpl in H.
  - injection H as _ <-. exact Hlen.
  - destruct (run_iteration L s inp) as [s1 handed shown| |] eqn:E; try discriminate H.
    destruct (run L s1 rest) as [frames' e] eqn:Er.
    injection H as _ ->.
    apply (IH s1 frames' s'); [|exact Er].
    exact (run_iteration_history_bounded L s s1 inp handed shown Hlen E).
Qed.

(** The history as a list: recording a frame without detections returns
    it as it is, recording one with detections appends an entry and then
    drops the oldest one if the size exceeds 100; from the empty list the
    result is the last 100 entries, oldest first. *)
Lemma record_all_bounded_fifo (frames : list (datetime * list Detection)) :
  Forall (fun f => Forall complete (snd f)) frames ->
  (forall history now, record history now [] = Ok history) /\
  (forall history now d dets,
      Forall complete (d :: dets) ->
      record history now (d :: dets)
      = Ok (let appended := (history ++ [entry now (d :: dets)])%list in
            if (100 <? Z.of_nat (List.length appended))%Z
            then tl appended else appended)) /\
  record_all [] frames = Ok (lastn 100 (entries_of frames)) /\
  (List.length (lastn 100 (entries_of frames)) <= 100)%nat /\
  (List.length (entries_of frames) = 101%nat ->
   forall first rest,
     entries_of frames = first :: rest ->
     lastn 100 (entries_of frames) = rest /\
     In (last (entries_of frames) first) (lastn 100 (entries_of frames)) /\
     (~ In first rest -> ~ In first (lastn 100 (entries_of frames)))).
Proof.
  intros Hc. split; [reflexivity|]. split; [|split; [|split]].
  - intros history now d dets Hd. exact (record_complete history now (d :: dets) Hd).
  - destruct (record_all_lastn frames Hc [] ltac:(simpl; lia)) as (final & -> & ->).
    reflexivity.
  - apply lastn_length.
  - intros Hlen first rest E.
    assert (Hrest : lastn 100 (entries_of frames) = rest).
    { rewrite E in *. simpl in Hlen.
      rewrite lastn_drop_head by lia. apply lastn_all. lia. }
    rewrite Hrest. split; [reflexivity|]. split; [|tauto].
    rewrite E. rewrite E in Hlen. simpl in Hlen.
    destruct rest as [|e rest']; [simpl in Hlen; lia|].
    change (last (first :: e :: rest') first) with (last (e :: rest') first).
    destruct (exists_last (l := e :: rest') ltac:(discriminate)) as (l' & a & ->).
    rewrite last_last. apply in_or_app. right. left. reflexivity.
Qed.

Lemma cat_frames_complete (n : nat) :
  Forall (fun f => Forall complete (snd f)) (map cat_frame (seq 0 n)).
Proof.
  apply Forall_forall. intros f Hin. apply in_map_iff in Hin.
  destruct Hin as (i & <- & _). simpl. repeat constructor; discriminate.
Qed.

Example record_all_101_frames :
  record_all [] (map cat_frame (seq 0 101))
  = Ok (map (fun i => entry (fst (cat_frame i)) (snd (cat_frame i))) (seq 1 100)).
Proof.
  destruct (record_all_bounded_fifo (map cat_frame (seq 0 101)) (cat_frames_complete 101))
    as (_ & _ & H & _).
  rewrite H. vm_compute. reflexivity.
Qed.

(** ** The frame-rate estimate *)

Lemma calculate_fps_below (self : ObjectDetectionUI) (end_time restart_time : float) :
  fps_counter self + 1 < 30 ->
  calculate_fps self end_time restart_time
  = Ok (set_fps_counter (fps_counter self + 1) self).
Proof.
  intros H. unfold calculate_fps.
  destruct (30 <=? fps_counter self + 1)%Z eqn:E; [apply Z.leb_le in E; lia|].
  reflexivity.
Qed.

Lemma calculate_fps_at_30 (self : ObjectDetectionUI) (end_time restart_time : float) :
  fps_counter self + 1 = 30 ->
  calculate_fps self end_time restart_time
  = if (end_time - fps_start_time self =? 0)%float
    then Raise ZeroDivisionError
    else Ok (publish_fps (30 / (end_time - fps_start_time self))%float restart_time self).
Proof.
  intros H. unfold calculate_fps. rewrite H. simpl Z.leb. cbv iota.
  unfold py_truediv.
  destruct (end_time - fps_start_time self =? 0)%float; reflexivity.
Qed.

Lemma calculate_fps_each_below (clocks : list (float * float)) :
  forall self,
    0 <= fps_counter self ->
    fps_counter self + Z.of_nat (List.length clocks) < 30 ->
    calculate_fps_each self clocks
    = Ok (set_fps_counter (fps_counter self + Z.of_nat (List.length clocks)) self).
Proof.
  induction clocks as [|[e r] clocks IH]; intros self H0 H.
  - simpl. rewrite Z.add_0_r. destruct self; reflexivity.
  - simpl List.length in H. simpl calculate_fps_each.
    rewrite calculate_fps_below by lia. simpl bind.
    rewrite IH by (simpl; lia). simpl.
    unfold set_fps_counter. simpl. do 2 f_equal. lia.
Qed.

Lemma calculate_fps_each_app (clocks later : list (float * float)) :
  forall self,
    calculate_fps_each self (clocks ++ later)
    = (self' <- calculate_fps_each self clocks ;; calculate_fps_each self' later).
Proof.
  induction clocks as [|[e r] clocks IH]; intros self; [reflexivity|].
  simpl. destruct (calculate_fps self e r) as [self'|err]; [|reflexivity].
  simpl. apply IH.
Qed.

(** C7: with the counter in [0, 30), a call of [calculate_fps] that takes
    the counter below 30 only increments it, leaving the published fps
    and the start of the window as they were; the call that takes it to
    30 publishes 30 / (end_time - fps_start_time), resets the counter to 0
    and starts the next window at the clock reading taken then (the
    division raises if no time at all has elapsed). So from a fresh
    window fewer than 30 calls leave the fps unchanged, exactly 30 calls
    publish 30 / elapsed, and the counter is in [0, 30) after every call. *)
Theorem calculate_fps_windowed (self : ObjectDetectionUI) (clocks : list (float * float))
        (end_time restart_time : float) :
  fps_counter self = 0 ->
  List.length clocks = 29%nat ->
  (forall n, (n <= 29)%nat ->
     calculate_fps_each self (firstn n clocks)
     = Ok (set_fps_counter (Z.of_nat n) self)) /\
  ((end_time - fps_start_time self =? 0)%float = false ->
   calculate_fps_each self (clocks ++ [(end_time, restart_time)])
   = Ok (publish_fps (30 / (end_time - fps_start_time self))%float restart_time self)) /\
  (forall s e r s',
     0 <= fps_counter s < 30 ->
     calculate_fps s e r = Ok s' ->
     0 <= fps_counter s' < 30 /\
     (fps_counter s + 1 < 30 ->
      fps_counter s' = fps_counter s + 1 /\
      current_fps s' = current_fps s /\ fps_start_time s' = fps_start_time s) /\
     (fps_counter s + 1 = 30 ->
      fps_counter s' = 0 /\
      current_fps s' = (30 / (e - fps_start_time s))%float /\
      fps_start_time s' = r)).
Proof.
  intros H0 Hlen. split; [|split].
  - intros n Hn.
    rewrite calculate_fps_each_below; rewrite ?length_firstn, ?H0; try lia.
    do 2 f_equal. lia.
  - intros Hz. rewrite calculate_fps_each_app.
    rewrite calculate_fps_each_below by (rewrite ?H0, ?Hlen; lia).
    simpl bind. simpl calculate_fps_each.
    rewrite calculate_fps_at_30 by (simpl; rewrite H0, Hlen; lia).
    simpl fps_start_time. rewrite Hz. reflexivity.
  - intros s e r s' Hs Hcall.
    destruct (Z.eq_dec (fps_counter s + 1) 30) as [E|E].
    + rewrite calculate_fps_at_30 in Hcall by assumption.
      destruct (e - fps_start_time s =? 0)%float; [discriminate|].
      injection Hcall as <-. simpl. repeat split; lia.
    + rewrite calculate_fps_below in Hcall by lia.
      injection Hcall as <-. simpl. repeat split; lia.
Qed.

Lemma calculate_fps_windowed_witness :
  calculate_fps_each (init default_classNames true 100%float)
                     (repeat (0%float, 0%float) 29 ++ [(101.5%float, 101.6%float)])
  = Ok (publish_fps 20%float 101.6%float (init default_classNames true 100%float)).
Proof.
  rewrite (proj1 (proj2 (calculate_fps_windowed
                           (init default_classNames true 100%float)
                           (repeat (0%float, 0%float) 29) 101.5%float 101.6%float
                           eq_refl eq_refl))).
  - vm_compute. reflexivity.
  - vm_compute. reflexivity.
Defined.

(** ** Key presses *)

Lemma handle_key_cases (self : ObjectDetectionUI) (waited : Z) :
  let key := Z.land waited 255 in
  handle_key self waited
  = if (key =? 113)%Z || (key =? 81)%Z then (self, true)
    else if (key =? 115)%Z || (key =? 83)%Z
    then (set_show_stats (negb (show_stats self)) self, false)
    else if (key =? 112)%Z || (key =? 80)%Z
    then (set_paused (negb (paused self)) self, false)
    else if (key =? 114)%Z || (key =? 82)%Z
    then (set_detection_history [] self, false)
    else if (key =? 43)%Z || (key =? 61)%Z
    then (set_thres (increase_threshold (thres self)) self, false)
    else if (key =? 45)%Z
    then (set_thres (decrease_threshold (thres self)) self, false)
    else (self, false).
Proof. reflexivity. Qed.

(** C8: the key taken from [waitKey] (its low 8 bits) is routed as
    follows. [q] and [Q] break the loop and change nothing; [s] and [S]
    flip [show_stats] only, so that two of them restore the session; [p]
    and [P] flip [paused] only; [r] and [R] empty the history and leave
    threshold, pause and statistics flag alone; [+] and [=] raise the
    threshold, [-] lowers it; every other value, the 255 of a poll without
    a key included, leaves the whole session as it was. The function is
    total: no key raises. *)
Theorem handle_key_routes (self : ObjectDetectionUI) (waited : Z) :
  let key := Z.land waited 255 in
  (key = ord "q" \/ key = ord "Q" -> handle_key self waited = (self, true)) /\
  (key = ord "s" \/ key = ord "S" ->
   handle_key self waited
   = ({| thres := thres self; classNames := classNames self;
         model_loaded := model_loaded self; fps_counter := fps_counter self;
         fps_start_time := fps_start_time self; current_fps := current_fps self;
         detection_history := detection_history self;
         show_stats := negb (show_stats self);
         paused := paused self |}, false)) /\
  (key = ord "p" \/ key = ord "P" ->
   handle_key self waited
   = ({| thres := thres self; classNames := classNames self;
         model_loaded := model_loaded self; fps_counter := fps_counter self;
         fps_start_time := fps_start_time self; current_fps := current_fps self;
         detection_history := detection_history self;
         show_stats := show_stats self;
         paused := negb (paused self) |}, false)) /\
  (key = ord "r" \/ key = ord "R" ->
   handle_key self waited
   = ({| thres := thres self; classNames := classNames self;
         model_loaded := model_loaded self; fps_counter := fps_counter self;
         fps_start_time := fps_start_time self; current_fps := current_fps self;
         detection_history := [];
         show_stats := show_stats self;
         paused := paused self |}, false)) /\
  (key = ord "+" \/ key = ord "=" ->
   handle_key self waited
   = ({| thres := py_min 1.0%float (thres self + 0.05)%float;
         classNames := classNames self;
         model_loaded := model_loaded self; fps_counter := fps_counter self;
         fps_start_time := fps_start_time self; current_fps := current_fps self;
         detection_history := detection_history self;
         show_stats := show_stats self;
         paused := paused self |}, false)) /\
  (key = ord "-" ->
   handle_key self waited
   = ({| thres := py_max 0.1%float (thres self - 0.05)%float;
         classNames := classNames self;
         model_loaded := model_loaded self; fps_counter := fps_counter self;
         fps_start_time := fps_start_time self; current_fps := current_fps self;
         detection_history := detection_history self;
         show_stats := show_stats self;
         paused := paused self |}, false)) /\
  (~ List.In key [ord "q"; ord "Q"; ord "s"; ord "S"; ord "p"; ord "P";
                  ord "r"; ord "R"; ord "+"; ord "="; ord "-"] ->
   handle_key self waited = (self, false)) /\
  handle_key self (-1) = (self, false) /\
  fst (handle_key (fst (handle_key self (ord "s"))) (ord "s")) = self.
Proof.
  intros key. rewrite handle_key_cases. fold key.
  change (ord "q") with 113. change (ord "Q") with 81.
  change (ord "s") with 115. change (ord "S") with 83.
  change (ord "p") with 112. change (ord "P") with 80.
  change (ord "r") with 114. change (ord "R") with 82.
  change (ord "+") with 43. change (ord "=") with 61. change (ord "-") with 45.
  repeat match goal with |- _ /\ _ => split end.
  - intros H. key_case.
  - intros H. key_case.
  - intros H. key_case.
  - intros H. key_case.
  - intros H. key_case.
  - intros H. key_case.
  - intros H. simpl in H.
    repeat match goal with
           | |- context [Z.eqb key ?c] =>
               destruct (Z.eqb_spec key c); [exfalso; apply H; lia|]
           end.
    reflexivity.
  - reflexivity.
  - destruct self as [t n m c s f h [|] p]; reflexivity.
Qed.

Lemma handle_key_routes_witness :
  handle_key (init default_classNames true 0%float) (ord "q" + 256)
  = (init default_classNames true 0%float, true)
  /\ handle_key (init default_classNames true 0%float) (ord "x")
     = (init default_classNames true 0%float, false).
Proof.
  split.
  - apply (proj1 (handle_key_routes (init default_classNames true 0%float) (ord "q" + 256))).
    left. reflexivity.
  - apply (proj1 (proj2 (proj2 (proj2 (proj2 (proj2 (proj2
             (handle_key_routes (init default_classNames true 0%float) (ord "x"))))))))).
    vm_compute. intuition discriminate.
Defined.

(** In the loop, the quit key ends the iteration with a [break]: no
    iteration continues past [q] or [Q]. *)
Lemma run_iteration_breaks_on_q (L : Lib) (s s' : LoopState) (inp : IterInput)
      (handed shown : Img) :
  Z.land (wait_key inp) 255 = ord "q" \/ Z.land (wait_key inp) 255 = ord "Q" ->
  run_iteration L s inp <> Continue s' handed shown.
Proof.
  intros Hq H. unfold run_iteration in H.
  destruct (acquire s inp) as [|img]; [discriminate H|].
  destruct (update_history _ _ _) as [self|e]; [|discriminate H].
  destruct img as [img|]; [|discriminate H].
  destruct (compose L self _ img _) as [out|e]; [|discriminate H].
  destruct (calculate_fps self _ _) as [self2|e]; [|discriminate H].
  rewrite handle_key_cases in H. cbv zeta in H.
  change (ord "q") with 113 in Hq. change (ord "Q") with 81 in Hq.
  destruct Hq as [Hq|Hq]; rewrite Hq in H; discriminate H.
Qed.

(** ** Iterations while paused *)







(** ** Loading the class names *)

Lemma rstrip_newline_app (a b : string) :
  rstrip_newline (a ++ b)
  = match rstrip_newline b with
    | EmptyString => rstrip_newline a
    | String _ _ => a ++ rstrip_newline b
    end.
Proof.
  induction a as [|c a IH]; simpl.
  - destruct (rstrip_newline b); reflexivity.
  - rewrite IH. destruct (rstrip_newline b) as [|d b'] eqn:Eb; [reflexivity|].
    destruct (a ++ String d b') eqn:Ea; [|reflexivity].
    destruct a; discriminate.
Qed.

Lemma rstrip_newline_newlines (n : nat) : rstrip_newline (newlines n) = "".
Proof.
  induction n as [|n IH]; [reflexivity|].
  simpl. rewrite IH. reflexivity.
Qed.

Lemma rstrip_newline_without (s : string) :
  has_newline s = false -> rstrip_newline s = s.
Proof.
  induction s as [|c s IH]; [reflexivity|].
  simpl. intros H. apply orb_false_iff in H. destruct H as [Hc Hs].
  rewrite (IH Hs), Hc. destruct s; reflexivity.
Qed.

Lemma split_newline_without (s : string) :
  has_newline s = false -> split_newline s = [s].
Proof.
  induction s as [|c s IH]; [reflexivity|].
  simpl. intros H. apply orb_false_iff in H. destruct H as [Hc Hs].
  rewrite Hc, (IH Hs). reflexivity.
Qed.

Lemma split_newline_app (a b : string) :
  has_newline a = false ->
  split_newline (a ++ String newline b) = a :: split_newline b.
Proof.
  induction a as [|c a IH]; simpl; intros H.
  - reflexivity.
  - apply orb_false_iff in H. destruct H as [Hc Ha].
    rewrite Hc, (IH Ha). reflexivity.
Qed.

Lemma split_newline_concat (names : list string) :
  names <> [] ->
  Forall (fun name => has_newline name = false) names ->
  split_newline (String.concat (String newline "") names) = names.
Proof.
  induction names as [|x names IH]; [congruence|].
  intros _ Hall. inversion Hall as [|? ? Hx Hrest]; subst.
  destruct names as [|y names].
  - simpl. now apply split_newline_without.
  - change (String.concat (String newline "") (x :: y :: names))
      with (x ++ String newline (String.concat (String newline "") (y :: names))).
    rewrite split_newline_app by assumption.
    rewrite IH; [reflexivity|discriminate|assumption].
Qed.

Lemma rstrip_newline_concat (names : list string) :
  names <> [] ->
  Forall (fun name => has_newline name = false) names ->
  last names "" <> "" ->
  rstrip_newline (String.concat (String newline "") names)
  = String.concat (String newline "") names /\
  String.concat (String newline "") names <> "".
Proof.
  induction names as [|x names IH]; [congruence|].
  intros _ Hall Hlast. inversion Hall as [|? ? Hx Hrest]; subst.
  destruct names as [|y names].
  - simpl in *. split; [now apply rstrip_newline_without|assumption].
  - change (String.concat (String newline "") (x :: y :: names))
      with (x ++ String newline (String.concat (String newline "") (y :: names))).
    destruct (IH ltac:(discriminate) Hrest Hlast) as [IH1 IH2].
    set (rest := String.concat (String newline "") (y :: names)) in *.
    assert (Hr : rstrip_newline (String newline rest) = String newline rest).
    { simpl. rewrite IH1. destruct rest; [congruence|reflexivity]. }
    split.
    + rewrite rstrip_newline_app, Hr. reflexivity.
    + destruct x; discriminate.
Qed.

(** X1: a [coco.names] written one name per line is read back as it was
    written. For a non-empty list of names, none holding a newline and the
    last one not empty, the file holding them joined by newlines and
    closed by any number of newlines loads as that list. *)
Theorem load_class_names_round_trip (names : list string) (n : nat) :
  names <> [] ->
  Forall (fun name => has_newline name = false) names ->
  last names "" <> "" ->
  load_class_names (Some (names_file names n)) = names.
Proof.
  intros Hne Hall Hlast. unfold load_class_names, names_file.
  rewrite rstrip_newline_app, rstrip_newline_newlines.
  destruct (rstrip_newline_concat names Hne Hall Hlast) as [-> _].
  now apply split_newline_concat.
Qed.

Lemma load_class_names_round_trip_witness :
  load_class_names (Some (names_file ["person"; "traffic light"; "car"] 2))
  = ["person"; "traffic light"; "car"].
Proof.
  apply load_class_names_round_trip.
  - discriminate.
  - repeat constructor.
  - discriminate.
Defined.

Lemma split_newline_nonempty (s : string) : split_newline s <> [].
Proof.
  destruct s as [|c s]; simpl; [discriminate|].
  destruct (Ascii.eqb c newline); [discriminate|].
  destruct (split_newline s); discriminate.
Qed.

Lemma concat_split_newline (s : string) :
  String.concat (String newline "") (split_newline s) = s.
Proof.
  induction s as [|c s IH]; [reflexivity|].
  simpl. destruct (Ascii.eqb_spec c newline) as [->|Hc].
  - pose proof (split_newline_nonempty s) as Hne.
    destruct (split_newline s) as [|p ps] eqn:E; [congruence|].
    change (String.concat (String newline "") ("" :: p :: ps))
      with (String newline (String.concat (String newline "") (p :: ps))).
    now rewrite IH.
  - pose proof (split_newline_nonempty s) as Hne.
    destruct (split_newline s) as [|p ps] eqn:E; [congruence|].
    rewrite <- IH. destruct ps; reflexivity.
Qed.

Lemma split_newline_pieces (s : string) :
  Forall (fun piece => has_newline piece = false) (split_newline s).
Proof.
  induction s as [|c s IH]; simpl.
  - repeat constructor.
  - destruct (Ascii.eqb c newline) eqn:Ec.
    + constructor; [reflexivity|assumption].
    + destruct (split_newline s) as [|p ps]; [repeat constructor; simpl; now rewrite Ec|].
      inversion IH as [|? ? Hp Hps]; subst.
      constructor; [simpl; now rewrite Ec, Hp|assumption].
Qed.

(** X2: whatever text [coco.names] holds, the loaded list is never empty,
    no loaded name holds a newline, and the names joined by newlines are
    the text without its trailing newlines: nothing but those is lost in
    loading. An empty file, or one of newlines only, gives one empty
    name. Without the file the list is the five default names person,
    bicycle, car, motorcycle, airplane. *)
Theorem load_class_names_total (text : string) :
  load_class_names (Some text) <> [] /\
  Forall (fun name => has_newline name = false) (load_class_names (Some text)) /\
  String.concat (String newline "") (load_class_names (Some text)) = rstrip_newline text /\
  (exists n, text = rstrip_newline text ++ newlines n) /\
  load_class_names (Some "") = [""] /\
  (forall n, load_class_names (Some (newlines n)) = [""]) /\
  load_class_names None = ["person"; "bicycle"; "car"; "motorcycle"; "airplane"].
Proof.
  unfold load_class_names. split; [apply split_newline_nonempty|].
  split; [apply split_newline_pieces|]. split; [apply concat_split_newline|].
  split; [|split; [reflexivity|split; [|reflexivity]]].
  - induction text as [|c text [n IH]]; [exists 0%nat; reflexivity|].
    simpl. destruct (rstrip_newline text) as [|d t] eqn:E.
    + destruct (Ascii.eqb_spec c newline) as [->|Hc].
      * exists (S n). simpl. simpl in IH. now rewrite <- IH.
      * exists n. simpl. simpl in IH. now rewrite <- IH.
    + exists n. simpl. simpl in IH. now rewrite <- IH.
  - intros n. now rewrite rstrip_newline_newlines.
Qed.

(** ** The box pass *)

Lemma draw_detection_result (L : Lib) (img : Img) (i : nat) (d : Detection) :
  match missing_key d with
  | Some key => draw_detection L img i d = Raise (KeyError key)
  | None =>
      exists b name conf out,
        box d = Some b /\ class_name d = Some name /\ confidence d = Some conf /\
        draw_detection L img i d = Ok out /\
        shape out = shape img /\
        rectangles out
        = (rectangles img
           ++ [ (let '(x, y, w, h) := b in ((x, y), (x + w, y + h)), box_color i, 2);
                (label_background L b name conf, box_color i, -1);
                (label_background L b name conf, (255, 255, 255), 1) ])%list /\
        texts out = (texts img ++ [label_text L name; confidence_text L conf])%list
  end.
Proof.
  unfold missing_key, draw_detection.
  destruct (box d) as [[[[x y] w] h]|]; [|reflexivity].
  destruct (class_name d) as [name|]; [|reflexivity].
  destruct (confidence d) as [conf|]; [|reflexivity].
  exists (x, y, w, h), name, conf. cbn [getitem bind].
  unfold label_background.
  destruct (getTextSize L (label_text L name) font_scale thickness) as [label_w label_h].
  destruct (getTextSize L (confidence_text L conf) 0.5%float 1) as [conf_w conf_h].
  eexists. repeat split.
  - cbn [rectangles]. rewrite <- !app_assoc. reflexivity.
  - cbn [texts]. rewrite <- !app_assoc. reflexivity.
Qed.

Lemma box_color_facts (i : nat) :
  In (box_color i) colors /\
  box_color (i + 9) = box_color i /\
  box_color (S i) <> box_color i.
Proof.
  unfold box_color. change (List.length colors) with 9%nat.
  assert (Hlt : (i mod 9 < 9)%nat) by (apply Nat.mod_upper_bound; lia).
  split; [|split].
  - apply nth_In. exact Hlt.
  - replace (i + 9)%nat with (i + 1 * 9)%nat by lia.
    now rewrite Nat.Div0.mod_add.
  - replace (S i) with (1 + i)%nat by lia.
    rewrite <- Nat.Div0.add_mod_idemp_r.
    remember (i mod 9)%nat as r eqn:Er. clear Er.
    do 9 (destruct r as [|r]; [vm_compute; discriminate|]). lia.
Qed.

(** X3: the palette is cycled by the position of a detection in the
    list. The detection at index [i] that holds its keys adds exactly
    three rectangles to the image: its outline and its filled label
    background, both in color [colors[i mod 9]], and the white border of
    the label. That color is one of the nine palette colors, equal for
    indices 9 apart and different for neighbouring indices. *)
Theorem draw_detection_uses_palette (L : Lib) (img : Img) (i : nat) (d : Detection)
        (b : Box) (name : string) (conf : float) :
  box d = Some b -> class_name d = Some name -> confidence d = Some conf ->
  (exists out,
      draw_detection L img i d = Ok out /\
      rectangles out
      = (rectangles img
         ++ [ (let '(x, y, w, h) := b in ((x, y), (x + w, y + h)), box_color i, 2);
              (label_background L b name conf, box_color i, -1);
              (label_background L b name conf, (255, 255, 255), 1) ])%list) /\
  In (box_color i) colors /\
  box_color (i + 9) = box_color i /\
  box_color (S i) <> box_color i.
Proof.
  intros Hb Hn Hc. split; [|apply box_color_facts].
  pose proof (draw_detection_result L img i d) as H.
  unfold missing_key in H. rewrite Hb, Hn, Hc in H.
  destruct H as (b' & name' & conf' & out & Eb & En & Ec & Hout & _ & Hr & _).
  injection Eb as <-. injection En as <-. injection Ec as <-.
  exists out. split; assumption.
Qed.

Lemma draw_detection_uses_palette_witness :
  box_color 10 = (100, 255, 100) /\ box_color 19 = box_color 10.
Proof.
  destruct (draw_detection_uses_palette demo_lib camera_frame 10 (named "cat")
              (100, 200, 50, 60) "cat" 0.9%float eq_refl eq_refl eq_refl)
    as (_ & _ & Hcycle & _).
  split; [reflexivity|exact Hcycle].
Defined.

Lemma first_missing_key_complete (dets : list Detection) :
  first_missing_key dets = None <-> Forall complete dets.
Proof.
  induction dets as [|d dets IH]; simpl.
  - split; [constructor|reflexivity].
  - unfold missing_key.
    destruct (box d) eqn:Eb, (class_name d) eqn:En, (confidence d) eqn:Ec; simpl;
      try (split; [discriminate|];
           intros H; inversion H as [|? ? Hd _]; destruct Hd as (Hb & Hn & Hc);
           congruence).
    rewrite IH. split.
    + intros H. constructor; [|assumption].
      unfold complete. rewrite Eb, En, Ec. repeat split; discriminate.
    + intros H. now inversion H.
Qed.

Lemma draw_detections_from_result (L : Lib) (dets : list Detection) :
  forall i img,
    match first_missing_key dets with
    | Some key => draw_detections_from L i img dets = Raise (KeyError key)
    | None => exists out, draw_detections_from L i img dets = Ok out /\
                          shape out = shape img
    end.
Proof.
  induction dets as [|d dets IH]; intros i img; simpl.
  - eexists. split; reflexivity.
  - pose proof (draw_detection_result L img i d) as Hd.
    destruct (missing_key d) as [key|].
    + rewrite Hd. reflexivity.
    + destruct Hd as (_ & _ & _ & out & _ & _ & _ & -> & Hs & _). simpl.
      specialize (IH (S i) out).
      destruct (first_missing_key dets) as [key|]; [exact IH|].
      destruct IH as (out' & -> & Hs'). eexists. split; [reflexivity|congruence].
Qed.

Lemma draw_enhanced_bounding_boxes_result (L : Lib) (img : Img) (dets : list Detection) :
  match first_missing_key dets with
  | Some key => draw_enhanced_bounding_boxes L img dets = Raise (KeyError key)
  | None => exists out, draw_enhanced_bounding_boxes L img dets = Ok out /\
                        shape out = shape img
  end.
Proof.
  destruct dets as [|d dets]; [eexists; split; reflexivity|].
  apply (draw_detections_from_result L (d :: dets) 0%nat img).
Qed.

(** X4: the box pass succeeds exactly when every detection holds the
    keys ['box'], ['class_name'] and ['confidence'] (the key ['class_id']
    is never read). Otherwise it raises [KeyError] for the first key, in
    that order, that the first such detection lacks; on success the image
    keeps its size. *)
Theorem draw_enhanced_bounding_boxes_key_errors (L : Lib) (img : Img)
        (dets : list Detection) :
  (Forall complete dets <->
   exists out, draw_enhanced_bounding_boxes L img dets = Ok out) /\
  (forall out, draw_enhanced_bounding_boxes L img dets = Ok out ->
               shape out = shape img) /\
  (forall key, first_missing_key dets = Some key ->
               draw_enhanced_bounding_boxes L img dets = Raise (KeyError key)) /\
  (forall e, draw_enhanced_bounding_boxes L img dets = Raise e ->
             exists key, e = KeyError key /\ first_missing_key dets = Some key).
Proof.
  pose proof (draw_enhanced_bounding_boxes_result L img dets) as H.
  rewrite <- first_missing_key_complete.
  destruct (first_missing_key dets) as [key|].
  - rewrite H. split; [|split; [|split]].
    + split; [discriminate|intros [out Hout]; discriminate].
    + discriminate.
    + intros k Hk. congruence.
    + intros e He. exists key. split; congruence.
  - destruct H as (out & Hout & Hs). rewrite Hout. split; [|split; [|split]].
    + split; [eauto|reflexivity].
    + intros o Ho. congruence.
    + discriminate.
    + discriminate.
Qed.

Example box_pass_missing_confidence :
  draw_enhanced_bounding_boxes demo_lib camera_frame [named "cat"; unscored "dog"]
  = Raise (KeyError "confidence").
Proof. reflexivity. Qed.

Lemma draw_detections_from_app (L : Lib) (first second : list Detection) :
  forall i img,
    draw_detections_from L i img (first ++ second)
    = (img' <- draw_detections_from L i img first ;;
       draw_detections_from L (i + List.length first) img' second).
Proof.
  induction first as [|d first IH]; intros i img; simpl.
  - now rewrite Nat.add_0_r.
  - destruct (draw_detection L img i d) as [img'|e]; [|reflexivity].
    simpl. rewrite IH. now rewrite Nat.add_succ_r.
Qed.

(** X5: the box pass works through the detections in list order, each
    one drawn over those before it: drawing a list followed by another is
    drawing the first list and then the second with its indices (hence
    its palette colors) shifted by the length of the first. *)
Theorem draw_enhanced_bounding_boxes_app (L : Lib) (img : Img)
        (first second : list Detection) :
  draw_enhanced_bounding_boxes L img (first ++ second)
  = (img' <- draw_enhanced_bounding_boxes L img first ;;
     draw_detections_from L (List.length first) img' second).
Proof.
  destruct first as [|d first].
  - simpl. destruct second; reflexivity.
  - change (draw_enhanced_bounding_boxes L img ((d :: first) ++ second))
      with (draw_detections_from L 0 img ((d :: first) ++ second)).
    rewrite draw_detections_from_app. reflexivity.
Qed.

(** ** The pause banner *)

Lemma shape_draw_header (L : Lib) (self : ObjectDetectionUI) (img : Img) :
  shape (draw_header L self img) = shape img.
Proof.
  unfold draw_header. destruct (shape img) as [height width] eqn:E. simpl. exact E.
Qed.

(** X6: the pause banner is drawn last and over everything else. When
    the session is paused, the composed frame is the frame the same
    session would compose unpaused, with the banner text drawn on top of
    it at (width/2 - 150, height/2) of the camera frame; this holds
    whether the statistics are shown or not. *)
Theorem compose_banner_last (L : Lib) (self : ObjectDetectionUI) (now : datetime)
        (img out : Img) (dets : list Detection) :
  paused self = true ->
  compose L self now img dets = Ok out ->
  exists below,
    compose L (set_paused false self) now img dets = Ok below /\
    out = PutText below "PAUSED - Press P to resume"
                  (snd (shape img) / 2 - 150, fst (shape img) / 2)
                  font 1%float (0, 0, 255) 2.
Proof.
  intros Hp H. unfold compose in *. rewrite Hp in H.
  change (draw_header L (set_paused false self) img) with (draw_header L self img).
  assert (Hshape : forall boxed,
             draw_enhanced_bounding_boxes L (draw_header L self img) dets = Ok boxed ->
             shape boxed = shape (draw_header L self img)).
  { intros boxed Hb.
    pose proof (draw_enhanced_bounding_boxes_result L (draw_header L self img) dets) as Hr.
    destruct (first_missing_key dets); [congruence|].
    destruct Hr as (out' & Ho & Hs). congruence. }
  destruct (draw_enhanced_bounding_boxes L (draw_header L self img) dets)
    as [boxed|e]; [|discriminate H].
  simpl in *. injection H as <-.
  change (draw_footer_stats L (set_paused false self) now boxed dets)
    with (draw_footer_stats L self now boxed dets).
  eexists. split; [reflexivity|].
  rewrite shape_draw_footer_stats, (Hshape boxed eq_refl), shape_draw_header.
  destruct (shape img) as [height width]. reflexivity.
Qed.

Lemma compose_banner_last_witness :
  exists below,
    compose demo_lib (set_paused false (ls_self state_first)) nine_o_five
            shown_first [] = Ok below /\
    shown_second = PutText below "PAUSED - Press P to resume"
                           (snd (shape shown_first) / 2 - 150,
                            fst (shape shown_first) / 2)
                           font 1%float (0, 0, 255) 2.
Proof.
  apply (compose_banner_last demo_lib (ls_self state_first) nine_o_five
           shown_first shown_second []).
  - reflexivity.
  - vm_compute. reflexivity.
Defined.

(** ** Keys *)

(** X7: only the low 8 bits of the value [waitKey] returns are looked
    at: two values that differ by a multiple of 256 are handled alike, so
    a key code carrying modifier or platform bits above bit 7 acts as the
    plain key. *)
Theorem handle_key_low_byte (self : ObjectDetectionUI) (waited n : Z) :
  handle_key self (waited + 256 * n) = handle_key self waited /\
  handle_key self (waited mod 256) = handle_key self waited.
Proof.
  assert (H : forall k, Z.land k 255 = k mod 256).
  { intros k. change 255 with (Z.ones 8). rewrite Z.land_ones by lia. reflexivity. }
  unfold handle_key. rewrite !H. split.
  - replace (waited + 256 * n) with (waited + n * 256) by lia.
    now rewrite Z.mod_add by lia.
  - now rewrite Z.mod_mod by lia.
Qed.

(** ** Reaching the ends of the threshold range *)

Lemma reachable_saturates :
  Forall (fun t =>
            fold_right (fun _ u => increase_threshold u) t (repeat tt 18) = 1.0%float /\
            fold_right (fun _ u => decrease_threshold u) t (repeat tt 18) = 0.1%float)
         reachable_thresholds.
Proof.
  unfold reachable_thresholds.
  repeat (apply Forall_cons; [split; vm_compute; reflexivity|]).
  apply Forall_nil.
Qed.

Lemma press_plus (n : nat) :
  forall self,
    thres (press self (repeat (ord "+") n))
    = fold_right (fun _ u => increase_threshold u) (thres self) (repeat tt n).
Proof.
  induction n as [|n IH]; intros self; [reflexivity|].
  replace (repeat (ord "+") (S n)) with (repeat (ord "+") n ++ [ord "+"])%list
    by (rewrite <- repeat_cons; reflexivity).
  rewrite press_app. simpl repeat. simpl fold_right. rewrite <- IH. reflexivity.
Qed.

Lemma press_minus (n : nat) :
  forall self,
    thres (press self (repeat (ord "-") n))
    = fold_right (fun _ u => decrease_threshold u) (thres self) (repeat tt n).
Proof.
  induction n as [|n IH]; intros self; [reflexivity|].
  replace (repeat (ord "-") (S n)) with (repeat (ord "-") n ++ [ord "-"])%list
    by (rewrite <- repeat_cons; reflexivity).
  rewrite press_app. simpl repeat. simpl fold_right. rewrite <- IH. reflexivity.
Qed.

(** X8: both ends of the threshold range can be reached and are kept.
    From the threshold left by any sequence of keys since the start, 18
    presses of [+] give exactly 1.0 and 18 presses of [-] give exactly
    0.1; at 1.0 a further [+] changes nothing, and at 0.1 a further [-]
    changes nothing. *)
Theorem threshold_saturates (names : list string) (loaded : bool) (t0 : float)
        (keys : list Z) :
  let self := press (init names loaded t0) keys in
  thres (press self (repeat (ord "+") 18)) = 1.0%float /\
  thres (press self (repeat (ord "-") 18)) = 0.1%float /\
  increase_threshold 1.0%float = 1.0%float /\
  decrease_threshold 0.1%float = 0.1%float.
Proof.
  intros self.
  assert (Ht : In (thres self) reachable_thresholds)
    by (apply press_reachable, init_reachable).
  destruct (proj1 (Forall_forall _ _) reachable_saturates _ Ht) as [Hup Hdown].
  rewrite press_plus, press_minus. repeat split; assumption || reflexivity.
Qed.

(** ** When the frame-rate estimate raises *)

(** X9: [calculate_fps] raises only [ZeroDivisionError], and exactly
    when the call closes a window (the counter reaches 30) whose end time
    equals its start time; in every other case it returns, and the
    threshold, the flags, the history and the class names are unchanged. *)
Theorem calculate_fps_raises (self : ObjectDetectionUI) (end_time restart_time : float) :
  (forall e, calculate_fps self end_time restart_time = Raise e ->
             e = ZeroDivisionError) /\
  ((exists e, calculate_fps self end_time restart_time = Raise e) <->
   30 <= fps_counter self + 1 /\
   (end_time - fps_start_time self =? 0)%float = true) /\
  (forall self', calculate_fps self end_time restart_time = Ok self' ->
     thres self' = thres self /\ paused self' = paused self /\
     show_stats self' = show_stats self /\
     detection_history self' = detection_history self /\
     classNames self' = classNames self /\ model_loaded self' = model_loaded self).
Proof.
  unfold calculate_fps, py_truediv.
  destruct (30 <=? fps_counter self + 1)%Z eqn:E.
  - apply Z.leb_le in E.
    destruct (end_time - fps_start_time self =? 0)%float; simpl.
    + split; [intros e H; now injection H as <-|].
      split; [split; [tauto|eauto]|discriminate].
    + split; [discriminate|].
      split; [split; [intros [e H]; discriminate|intros [_ H]; discriminate]|].
      intros self' H. injection H as <-. simpl. tauto.
  - apply Z.leb_gt in E.
    split; [discriminate|].
    split; [split; [intros [e H]; discriminate|intros [H _]; lia]|].
    intros self' H. injection H as <-. simpl. tauto.
Qed.

(** ** Detector arrays of different lengths *)

Lemma zip3_length {A B C : Type} (la : list A) (lb : list B) (lc : list C) :
  List.length (zip3 la lb lc)
  = Nat.min (List.length la) (Nat.min (List.length lb) (List.length lc)).
Proof.
  revert lb lc. induction la as [|a la IH]; intros lb lc; [reflexivity|].
  destruct lb as [|b lb]; [reflexivity|]. destruct lc as [|c lc]; [simpl; lia|].
  simpl. now rewrite IH.
Qed.

Lemma zip3_firstn {A B C : Type} (n : nat) (la : list A) (lb : list B) (lc : list C) :
  (Nat.min (List.length la) (Nat.min (List.length lb) (List.length lc)) <= n)%nat ->
  zip3 (firstn n la) (firstn n lb) (firstn n lc) = zip3 la lb lc.
Proof.
  revert la lb lc. induction n as [|n IH]; intros la lb lc H.
  - destruct la as [|a la]; [reflexivity|]. destruct lb as [|b lb]; [reflexivity|].
    destruct lc as [|c lc]; [reflexivity|]. simpl in H. lia.
  - destruct la as [|a la]; [reflexivity|]. destruct lb as [|b lb]; [reflexivity|].
    destruct lc as [|c lc]; [reflexivity|]. simpl in *. rewrite IH by lia. reflexivity.
Qed.

(** X10: the three arrays of the detector are zipped, so they are read
    up to the length of the shortest: there are at most that many
    detections, and cutting all three arrays to that length (what lies
    beyond is never looked at) gives the same detections. *)
Theorem detect_zips_to_shortest (self : ObjectDetectionUI) (classIds : list Z)
        (confs : list float) (bbox : list Box) :
  let shortest := Nat.min (List.length classIds)
                          (Nat.min (List.length confs) (List.length bbox)) in
  (List.length (detect self (Detected classIds confs bbox)) <= shortest)%nat /\
  detect self (Detected (firstn shortest classIds) (firstn shortest confs)
                        (firstn shortest bbox))
  = detect self (Detected classIds confs bbox).
Proof.
  intros shortest. unfold detect.
  destruct (model_loaded self && negb (paused self)); [|split; [simpl; lia|reflexivity]].
  split.
  - destruct (negb (Nat.eqb (List.length classIds) 0)); [|simpl; lia].
    rewrite append_detections_filter. simpl. rewrite length_map.
    etransitivity; [apply filter_length_le|]. now rewrite zip3_length.
  - rewrite zip3_firstn by reflexivity.
    destruct classIds as [|c cs]; [destruct shortest; reflexivity|].
    destruct shortest as [|k] eqn:Es; [|reflexivity].
    simpl. destruct confs as [|f fs]; [reflexivity|].
    destruct bbox as [|b bs]; [reflexivity|]. unfold shortest in Es. simpl in Es. lia.
Qed.

(** ** The loop, iteration by iteration *)

Lemma update_history_detect (self : ObjectDetectionUI) (now : datetime) (r : DetectResult) :
  exists history,
    record (detection_history self) now (detect self r) = Ok history /\
    update_history self now (detect self r) = Ok (set_detection_history history self).
Proof.
  unfold update_history.
  rewrite (record_complete _ _ _ (detect_complete self r)).
  eexists. split; reflexivity.
Qed.

Lemma compose_detect (L : Lib) (self self1 : ObjectDetectionUI) (now : datetime)
      (img : Img) (r : DetectResult) :
  exists shown, compose L self1 now img (detect self r) = Ok shown.
Proof.
  unfold compose.
  destruct (draw_enhanced_bounding_boxes_complete L (draw_header L self1 img)
              (detect self r) (detect_complete self r)) as (boxed & -> & _).
  simpl. eexists. reflexivity.
Qed.

(** Every way an iteration can end. *)
Lemma run_iteration_outcomes (L : Lib) (s : LoopState) (inp : IterInput) :
  match run_iteration L s inp with
  | Continue s' handed shown => completes L s inp handed shown s'
  | Break s' (Some shown) => exists handed, completes L s inp handed shown s'
  | Break s' None =>
      s' = s /\ paused (ls_self s) = false /\ cap_read inp = None
  | Uncaught e =>
      (e = UnboundLocalError "img" /\ paused (ls_self s) = true /\ ls_img s = None) \/
      (e = ZeroDivisionError /\
       30 <= fps_counter (ls_self s) + 1 /\
       (time_end inp - fps_start_time (ls_self s) =? 0)%float = true)
  end.
Proof.
  unfold run_iteration, completes.
  destruct (acquire s inp) as [|img] eqn:Ea.
  - unfold acquire in Ea. destruct (paused (ls_self s)); simpl in Ea; [discriminate|].
    destruct (cap_read inp); [discriminate|]. auto.
  - destruct (update_history_detect (ls_self s) (now_history inp) (net_detect inp))
      as (history & _ & Hu).
    rewrite Hu.
    destruct img as [handed|].
    + destruct (compose_detect L (ls_self s) (set_detection_history history (ls_self s))
                  (now_footer inp) handed (net_detect inp)) as (shown & Hc).
      rewrite Hc.
      destruct (calculate_fps _ (time_end inp) (time_restart inp)) as [self2|e] eqn:Ef.
      * destruct (handle_key self2 (wait_key inp)) as [self3 quit] eqn:Ek.
        destruct quit.
        -- exists handed, (set_detection_history history (ls_self s)), self2.
           rewrite Ek. auto.
        -- exists (set_detection_history history (ls_self s)), self2.
           rewrite Ek. auto.
      * right. unfold calculate_fps, py_truediv in Ef. simpl in Ef.
        destruct (30 <=? fps_counter (ls_self s) + 1)%Z eqn:E30; [|discriminate].
        apply Z.leb_le in E30.
        destruct (time_end inp - fps_start_time (ls_self s) =? 0)%float;
          [|discriminate].
        simpl in Ef. injection Ef as <-. auto.
    + left. unfold acquire in Ea.
      destruct (paused (ls_self s)); simpl in Ea.
      * injection Ea as Ea. auto.
      * destruct (cap_read inp); discriminate.
Qed.

Lemma completes_img (L : Lib) (s s' : LoopState) (inp : IterInput) (handed shown : Img) :
  completes L s inp handed shown s' -> ls_img s' = Some shown.
Proof. intros (self1 & self2 & _ & _ & _ & _ & ->). reflexivity. Qed.

(** What holds of the state at the start of a run and is kept by every
    completed iteration holds of the state the run ends in. *)
Lemma run_invariant (L : Lib) (P : LoopState -> Prop) :
  (forall s inp handed shown s', P s -> completes L s inp handed shown s' -> P s') ->
  forall inputs s frames e s',
    P s -> run L s inputs = (frames, e) -> final_state e = Some s' -> P s'.
Proof.
  intros Hstep. induction inputs as [|inp rest IH]; intros s frames e s' HP Hrun Hfin.
  - simpl in Hrun. injection Hrun as _ <-. simpl in Hfin. now injection Hfin as <-.
  - simpl in Hrun. pose proof (run_iteration_outcomes L s inp) as Ho.
    destruct (run_iteration L s inp) as [s1 handed shown|s1 [shown|]|err].
    + rename Ho into Hc.
      destruct (run L s1 rest) as [frames' e'] eqn:Er.
      injection Hrun as _ <-.
      exact (IH s1 frames' e' s' (Hstep _ _ _ _ _ HP Hc) Er Hfin).
    + destruct Ho as [handed Hc]. injection Hrun as _ <-.
      simpl in Hfin. injection Hfin as <-. exact (Hstep _ _ _ _ _ HP Hc).
    + destruct Ho as (-> & _). injection Hrun as _ <-.
      simpl in Hfin. now injection Hfin as <-.
    + injection Hrun as _ <-. discriminate Hfin.
Qed.

(** X11: the only exception that can leave the loop is the
    [ZeroDivisionError] of the frame-rate estimate. From a state in which
    [img] is bound whenever the session is paused (as at the start, where
    the session is not paused), whatever the camera, the detector, the
    clocks and the keyboard give, a run never ends in a [KeyError] or in
    an unbound [img]. *)
Theorem run_raises_only_zero_division (L : Lib) (inputs : list IterInput) :
  forall s frames e,
    img_bound s ->
    run L s inputs = (frames, Crashed e) ->
    e = ZeroDivisionError.
Proof.
  induction inputs as [|inp rest IH]; intros s frames e Hb Hrun; simpl in Hrun.
  - discriminate Hrun.
  - pose proof (run_iteration_outcomes L s inp) as Ho.
    destruct (run_iteration L s inp) as [s1 handed shown|s1 shown|err].
    + rename Ho into Hc.
      destruct (run L s1 rest) as [frames' e'] eqn:Er.
      injection Hrun as _ ->.
      apply (IH s1 frames' e); [|exact Er].
      intros _. rewrite (completes_img _ _ _ _ _ _ Hc). discriminate.
    + discriminate Hrun.
    + injection Hrun as _ <-.
      destruct Ho as [(_ & Hp & Hi)|(He & _)]; [|exact He].
      exfalso. exact (Hb Hp Hi).
Qed.

Lemma run_raises_only_zero_division_witness :
  run demo_lib window_end [stalled_clock] = ([], Crashed ZeroDivisionError).
Proof.
  destruct (run demo_lib window_end [stalled_clock]) as [frames [s|s|e]] eqn:E;
    try (vm_compute in E; discriminate E).
  rewrite (run_raises_only_zero_division demo_lib [stalled_clock] window_end frames e
             ltac:(intros H; discriminate H) E).
  vm_compute in E. injection E as <- _. reflexivity.
Defined.

(** X12: a failed camera read ends the loop, and only while the session
    is not paused: an iteration breaks without displaying anything
    exactly when the session is not paused and [cap.read()] reports
    failure, and it leaves the session as it was. While paused the camera
    is not read, so its failure goes unnoticed. *)
Theorem camera_failure_breaks (L : Lib) (s s' : LoopState) (inp : IterInput) :
  run_iteration L s inp = Break s' None <->
  paused (ls_self s) = false /\ cap_read inp = None /\ s' = s.
Proof.
  split.
  - intros H. pose proof (run_iteration_outcomes L s inp) as Ho.
    rewrite H in Ho. tauto.
  - intros (Hp & Hc & ->). unfold run_iteration, acquire. rewrite Hp, Hc. reflexivity.
Qed.

Example camera_gone_breaks :
  run demo_lib start [camera_gone; two_objects] = ([], Stopped start).
Proof. reflexivity. Qed.

(** ** What the loop keeps *)

Lemma handle_key_static (self : ObjectDetectionUI) (waited : Z) :
  classNames (fst (handle_key self waited)) = classNames self /\
  model_loaded (fst (handle_key self waited)) = model_loaded self /\
  fps_counter (fst (handle_key self waited)) = fps_counter self.
Proof.
  unfold handle_key.
  repeat match goal with
         | |- context [if ?b then _ else _] => destruct b
         end; simpl; auto.
Qed.

Lemma calculate_fps_static (self self' : ObjectDetectionUI) (e r : float) :
  calculate_fps self e r = Ok self' ->
  classNames self' = classNames self /\ model_loaded self' = model_loaded self.
Proof.
  unfold calculate_fps. destruct (30 <=? fps_counter self + 1)%Z.
  - destruct (py_truediv _ _); [|discriminate]. simpl. intros H. now injection H as <-.
  - intros H. now injection H as <-.
Qed.

(** The parts of a completed iteration, with the history it writes. *)
Lemma completes_parts (L : Lib) (s s' : LoopState) (inp : IterInput) (handed shown : Img) :
  completes L s inp handed shown s' ->
  exists history self2,
    record (detection_history (ls_self s)) (now_history inp)
           (detect (ls_self s) (net_detect inp)) = Ok history /\
    calculate_fps (set_detection_history history (ls_self s))
                  (time_end inp) (time_restart inp) = Ok self2 /\
    ls_self s' = fst (handle_key self2 (wait_key inp)).
Proof.
  intros (self1 & self2 & _ & Hu & _ & Hf & ->).
  destruct (update_history_detect (ls_self s) (now_history inp) (net_detect inp))
    as (history & Hr & Hu').
  rewrite Hu' in Hu. injection Hu as <-.
  exists history, self2. auto.
Qed.

Lemma completes_static (L : Lib) (s s' : LoopState) (inp : IterInput) (handed shown : Img) :
  completes L s inp handed shown s' ->
  classNames (ls_self s') = classNames (ls_self s) /\
  model_loaded (ls_self s') = model_loaded (ls_self s).
Proof.
  intros H. destruct (completes_parts _ _ _ _ _ _ H) as (history & self2 & _ & Hf & ->).
  destruct (handle_key_static self2 (wait_key inp)) as (-> & -> & _).
  destruct (calculate_fps_static _ _ _ _ Hf) as (-> & ->). auto.
Qed.

Lemma detect_named (self : ObjectDetectionUI) (r : DetectResult) :
  Forall (fun name => In name (classNames self)) (detected_objects (detect self r)).
Proof.
  unfold detect.
  destruct (model_loaded self && negb (paused self)); [|constructor].
  destruct r as [|classIds confs bbox]; [constructor|].
  destruct (negb (Nat.eqb (List.length classIds) 0)); [|constructor].
  rewrite append_detections_filter. simpl.
  induction (zip3 classIds confs bbox) as [|[[c f] b] rest IH]; [constructor|].
  simpl. unfold keeps at 1. simpl fst.
  destruct (valid_class_id (classNames self) c) eqn:E; [|exact IH].
  unfold detected_objects. simpl. constructor; [|exact IH].
  unfold valid_class_id in E. apply andb_true_iff in E. destruct E as [E1 E2].
  apply Z.leb_le in E1. apply Z.ltb_lt in E2.
  apply nth_In. lia.
Qed.

Lemma detected_objects_length (dets : list Detection) :
  Forall complete dets -> List.length (detected_objects dets) = List.length dets.
Proof.
  induction 1 as [|d dets (_ & Hn & _) _ IH]; [reflexivity|].
  unfold detected_objects in *. simpl.
  destruct (class_name d); [|congruence]. simpl. now rewrite IH.
Qed.

Lemma Forall_tl {A : Type} (P : A -> Prop) (l : list A) :
  Forall P l -> Forall P (tl l).
Proof. intros H. destruct l; [constructor|now inversion H]. Qed.

(** X13: every entry of the history is one the loop wrote for a frame
    with detections. If all entries at the start of a run count at least
    one object, as many objects as they name, all named by class names
    (as in the empty history of a new session), so do all entries of the
    history the run ends with; and the class names are those of the
    start. No key and no frame can put an entry for an empty frame, or a
    name foreign to [classNames], into the history. *)
Theorem run_keeps_history_entries (L : Lib) (inputs : list IterInput)
        (s s' : LoopState) (frames : list (Img * Img)) (e : RunEnd) :
  Forall (entry_ok (classNames (ls_self s))) (detection_history (ls_self s)) ->
  run L s inputs = (frames, e) ->
  final_state e = Some s' ->
  classNames (ls_self s') = classNames (ls_self s) /\
  Forall (entry_ok (classNames (ls_self s))) (detection_history (ls_self s')).
Proof.
  intros H0 Hrun Hfin.
  set (P := fun t => classNames (ls_self t) = classNames (ls_self s) /\
                     Forall (entry_ok (classNames (ls_self s)))
                            (detection_history (ls_self t))).
  refine (run_invariant L P _ inputs s frames e s' (conj eq_refl H0) Hrun Hfin).
  unfold P. clear. intros t inp handed shown t' [Hn Hh] Hc.
  destruct (completes_static _ _ _ _ _ _ Hc) as [Hn' _].
  split; [congruence|].
  destruct (completes_parts _ _ _ _ _ _ Hc) as (history & self2 & Hr & Hf & ->).
  destruct (handle_key_history self2 (wait_key inp)) as [-> | ->]; [|constructor].
  rewrite (calculate_fps_history _ _ _ _ Hf). simpl.
  pose proof (detect_complete (ls_self t) (net_detect inp)) as Hcomplete.
  pose proof (detect_named (ls_self t) (net_detect inp)) as Hnamed.
  rewrite (record_complete _ _ _ Hcomplete) in Hr.
  destruct (detect (ls_self t) (net_detect inp)) as [|d dets] eqn:Ed.
  - injection Hr as <-. exact Hh.
  - injection Hr as <-.
    assert (Hall : Forall (entry_ok (classNames (ls_self s)))
                          (detection_history (ls_self t)
                           ++ [ {| time := now_history inp;
                                   count := Z.of_nat (List.length (d :: dets));
                                   objects := detected_objects (d :: dets) |} ])).
    { apply Forall_app. split; [exact Hh|]. constructor; [|constructor].
      unfold entry_ok. cbn [count objects].
      rewrite (detected_objects_length _ Hcomplete), <- Hn.
      split; [simpl List.length; lia|]. split; [reflexivity|exact Hnamed]. }
    cbv zeta. destruct (100 <? _)%Z; [apply Forall_tl|]; exact Hall.
Qed.

Lemma run_keeps_history_entries_witness :
  match final_state (snd (run demo_lib start [two_objects; pressing_p; idle])) with
  | Some s' =>
      List.length (detection_history (ls_self s')) = 1%nat /\
      Forall (entry_ok default_classNames) (detection_history (ls_self s'))
  | None => False
  end.
Proof.
  assert (Hlen : match final_state (snd (run demo_lib start
                                            [two_objects; pressing_p; idle])) with
                 | Some s' => List.length (detection_history (ls_self s')) = 1%nat
                 | None => False
                 end) by (vm_compute; reflexivity).
  destruct (run demo_lib start [two_objects; pressing_p; idle]) as [frames e] eqn:E.
  simpl snd in *. destruct (final_state e) as [s'|] eqn:Ef; [|exact Hlen].
  split; [exact Hlen|].
  exact (proj2 (run_keeps_history_entries demo_lib [two_objects; pressing_p; idle]
                  start s' frames e ltac:(constructor) E Ef)).
Defined.








Lemma completes_counts (L : Lib) (s s' : LoopState) (inp : IterInput)
      (handed shown : Img) :
  0 <= fps_counter (ls_self s) < 30 ->
  completes L s inp handed shown s' ->
  fps_counter (ls_self s') = (fps_counter (ls_self s) + 1) mod 30 /\
  0 <= fps_counter (ls_self s') < 30.
Proof.
  intros Hc H.
  destruct (completes_parts _ _ _ _ _ _ H) as (history & self2 & _ & Hf & ->).
  destruct (handle_key_static self2 (wait_key inp)) as (_ & _ & ->).
  unfold calculate_fps in Hf. simpl fps_counter in Hf.
  destruct (30 <=? fps_counter (ls_self s) + 1)%Z eqn:E.
  - apply Z.leb_le in E. destruct (py_truediv _ _); [|discriminate Hf].
    simpl in Hf. injection Hf as <-. simpl.
    replace (fps_counter (ls_self s) + 1) with 30 by lia. split; [reflexivity|lia].
  - apply Z.leb_gt in E. injection Hf as <-. simpl.
    rewrite Z.mod_small by lia. lia.
Qed.

(** X15: the frame counter counts every displayed frame, paused or not.
    With the counter in [0, 30) at the start, a run that is still going
    after its inputs has displayed one frame per iteration, and its
    counter is the start counter plus the number of iterations, modulo
    30: the frame-rate estimate is the rate of loop iterations, not of
    camera frames. *)
Theorem run_counts_every_iteration (L : Lib) (inputs : list IterInput) :
  forall s frames s',
    0 <= fps_counter (ls_self s) < 30 ->
    run L s inputs = (frames, Running s') ->
    List.length frames = List.length inputs /\
    fps_counter (ls_self s')
    = (fps_counter (ls_self s) + Z.of_nat (List.length inputs)) mod 30.
Proof.
  induction inputs as [|inp rest IH]; intros s frames s' Hc Hrun; simpl in Hrun.
  - injection Hrun as <- <-. simpl. rewrite Z.add_0_r, Z.mod_small by lia. auto.
  - pose proof (run_iteration_outcomes L s inp) as Ho.
    destruct (run_iteration L s inp) as [s1 handed shown|s1 shown|err];
      try discriminate Hrun.
    destruct (completes_counts _ _ _ _ _ _ Hc Ho) as [H1 Hc1].
    destruct (run L s1 rest) as [frames' e'] eqn:Er.
    injection Hrun as <- ->.
    destruct (IH s1 frames' s' Hc1 Er) as [Hl Hn].
    split; [simpl; now rewrite Hl|].
    rewrite Hn, H1, Z.add_mod_idemp_l by lia.
    f_equal. simpl List.length. lia.
Qed.

Lemma run_counts_every_iteration_witness :
  exists frames s',
    run demo_lib start [pressing_p; idle] = (frames, Running s') /\
    fps_counter (ls_self s') = 2.
Proof.
  assert (E : run demo_lib start [pressing_p; idle]
              = ([(camera_frame, shown_first); (shown_first, shown_second)],
                 Running state_second)) by (vm_compute; reflexivity).
  exists [(camera_frame, shown_first); (shown_first, shown_second)], state_second.
  split; [exact E|].
  rewrite (proj2 (run_counts_every_iteration demo_lib [pressing_p; idle] start _ _
                    ltac:(simpl; lia) E)).
  reflexivity.
Defined.

(** ** The texts of a composed frame, in drawing order *)






(** ** The history of the session along the loop *)

Lemma update_history_empty (self : ObjectDetectionUI) (now : datetime) :
  update_history self now [] = Ok self.
Proof. destruct self; reflexivity. Qed.

Lemma update_history_complete (self : ObjectDetectionUI) (now : datetime)
      (d : Detection) (dets : list Detection) :
  Forall complete (d :: dets) ->
  update_history self now (d :: dets)
  = Ok (set_detection_history
          (let appended := (detection_history self ++ [entry now (d :: dets)])%list in
           if (100 <? Z.of_nat (List.length appended))%Z then tl appended else appended)
          self).
Proof.
  intros H. unfold update_history. rewrite (record_complete _ _ _ H). reflexivity.
Qed.

Lemma handle_key_keeps_history (self : ObjectDetectionUI) (waited : Z) :
  is_clear_key waited = false ->
  detection_history (fst (handle_key self waited)) = detection_history self.
Proof.
  unfold is_clear_key, handle_key. cbv zeta. intros H.
  repeat match goal with
         | |- context [if ?b then _ else _] => destruct b eqn:?
         end; simpl; congruence.
Qed.

Lemma frame_entries_of (now : datetime) (dets : list Detection) :
  entries_of [(now, dets)] = frame_entries now dets.
Proof. destruct dets; reflexivity. Qed.

(** The history a completed iteration leaves. *)
Lemma completes_history (L : Lib) (s s' : LoopState) (inp : IterInput)
      (handed shown : Img) :
  completes L s inp handed shown s' ->
  (List.length (detection_history (ls_self s)) <= 100)%nat ->
  (List.length (detection_history (ls_self s')) <= 100)%nat /\
  (is_clear_key (wait_key inp) = false ->
   forall later,
     lastn 100 (detection_history (ls_self s') ++ later)
     = lastn 100 (detection_history (ls_self s)
                  ++ frame_entries (now_history inp)
                                   (detect (ls_self s) (net_detect inp))
                  ++ later)).
Proof.
  intros Hc Hlen.
  destruct (completes_parts _ _ _ _ _ _ Hc) as (history & self2 & Hr & Hf & ->).
  pose proof (calculate_fps_history _ _ _ _ Hf) as Hh2. simpl in Hh2.
  split.
  - destruct (handle_key_history self2 (wait_key inp)) as [-> | ->]; [|simpl; lia].
    rewrite Hh2.
    destruct (record_step (detection_history (ls_self s)) (now_history inp)
                (detect (ls_self s) (net_detect inp)) []
                (detect_complete _ _) Hlen) as (h & Hr' & Hh & _).
    congruence.
  - intros Hk later. rewrite (handle_key_keeps_history _ _ Hk), Hh2.
    destruct (record_step (detection_history (ls_self s)) (now_history inp)
                (detect (ls_self s) (net_detect inp)) later
                (detect_complete _ _) Hlen) as (h & Hr' & _ & Hlast).
    rewrite frame_entries_of in Hlast. congruence.
Qed.

Lemma run_history_lastn (L : Lib) (inputs : list IterInput) :
  forall s s' frames e,
    (List.length (detection_history (ls_self s)) <= 100)%nat ->
    Forall (fun inp => is_clear_key (wait_key inp) = false) inputs ->
    run L s inputs = (frames, e) ->
    final_state e = Some s' ->
    detection_history (ls_self s')
    = lastn 100 (detection_history (ls_self s) ++ entries_along L s inputs).
Proof.
  induction inputs as [|inp rest IH]; intros s s' frames e Hlen Hkeys Hrun Hfin;
    simpl in Hrun.
  - injection Hrun as _ <-. simpl in Hfin. injection Hfin as <-.
    simpl. rewrite app_nil_r. symmetry. now apply lastn_all.
  - inversion Hkeys as [|? ? Hk Hrest]; subst.
    pose proof (run_iteration_outcomes L s inp) as Ho. simpl entries_along.
    destruct (run_iteration L s inp) as [s1 handed shown|s1 [shown|]|err].
    + destruct (completes_history _ _ _ _ _ _ Ho Hlen) as [Hlen1 Hlast].
      destruct (run L s1 rest) as [frames' e'] eqn:Er.
      injection Hrun as _ <-.
      rewrite (IH s1 s' frames' e' Hlen1 Hrest Er Hfin).
      apply (Hlast Hk).
    + destruct Ho as [handed Hc].
      destruct (completes_history _ _ _ _ _ _ Hc Hlen) as [Hlen1 Hlast].
      injection Hrun as _ <-. simpl in Hfin. injection Hfin as <-.
      specialize (Hlast Hk []). rewrite !app_nil_r in Hlast.
      rewrite <- Hlast. symmetry. now apply lastn_all.
    + destruct Ho as (-> & _). injection Hrun as _ <-.
      simpl in Hfin. injection Hfin as <-.
      rewrite app_nil_r. symmetry. now apply lastn_all.
    + injection Hrun as _ <-. discriminate Hfin.
Qed.

Lemma run_history_size (L : Lib) (inputs : list IterInput) (s s' : LoopState)
      (frames : list (Img * Img)) (e : RunEnd) :
  (List.length (detection_history (ls_self s)) <= 100)%nat ->
  run L s inputs = (frames, e) ->
  final_state e = Some s' ->
  (List.length (detection_history (ls_self s')) <= 100)%nat.
Proof.
  intros Hlen Hrun Hfin.
  refine (run_invariant L
            (fun t => (List.length (detection_history (ls_self t)) <= 100)%nat)
            _ inputs s frames e s' Hlen Hrun Hfin).
  intros t inp handed shown t' Ht Hc.
  exact (proj1 (completes_history _ _ _ _ _ _ Hc Ht)).
Qed.

(** C6: the history of the session is a FIFO of at most 100 entries.
    Updating it with an empty detection list returns the session as it
    is; updating it with detections stores the history with exactly one
    entry appended and then the oldest one dropped if the size exceeds
    100. Along the loop, from a history of at most 100 entries: the
    history the run ends with has at most 100 entries; and, as long as
    the clear key is not pressed, it is the last 100, oldest first, of
    the entries it started with followed by one entry for each iteration
    that had detections, in the order of the iterations. So from the
    empty history, after 101 iterations with detections the history is
    entries 2 to 101: the 101st is present and the first, unless a later
    entry equals it, is absent. *)
Theorem history_bounded_fifo (L : Lib) (s s' : LoopState) (inputs : list IterInput)
        (frames : list (Img * Img)) (e : RunEnd) :
  (List.length (detection_history (ls_self s)) <= 100)%nat ->
  run L s inputs = (frames, e) ->
  final_state e = Some s' ->
  (forall self now, update_history self now [] = Ok self) /\
  (forall self now d dets,
      Forall complete (d :: dets) ->
      update_history self now (d :: dets)
      = Ok (set_detection_history
              (let appended :=
                 (detection_history self ++ [entry now (d :: dets)])%list in
               if (100 <? Z.of_nat (List.length appended))%Z
               then tl appended else appended)
              self)) /\
  (List.length (detection_history (ls_self s')) <= 100)%nat /\
  (Forall (fun inp => is_clear_key (wait_key inp) = false) inputs ->
   detection_history (ls_self s')
   = lastn 100 (detection_history (ls_self s) ++ entries_along L s inputs) /\
   (detection_history (ls_self s) = [] ->
    forall first rest,
      entries_along L s inputs = first :: rest ->
      List.length rest = 100%nat ->
      detection_history (ls_self s') = rest /\
      In (last rest first) (detection_history (ls_self s')) /\
      (~ In first rest -> ~ In first (detection_history (ls_self s'))))).
Proof.
  intros Hlen Hrun Hfin.
  split; [exact update_history_empty|]. split; [exact update_history_complete|].
  split; [exact (run_history_size L inputs s s' frames e Hlen Hrun Hfin)|].
  intros Hkeys.
  pose proof (run_history_lastn L inputs s s' frames e Hlen Hkeys Hrun Hfin) as Hlast.
  split; [exact Hlast|].
  intros Hempty first rest Hentries Hrest.
  rewrite Hempty, Hentries in Hlast. simpl app in Hlast.
  rewrite lastn_drop_head in Hlast by lia.
  rewrite lastn_all in Hlast by lia.
  rewrite Hlast. split; [reflexivity|]. split; [|tauto].
  destruct rest as [|r rest']; [simpl in Hrest; lia|].
  destruct (exists_last (l := r :: rest') ltac:(discriminate)) as (l' & a & ->).
  rewrite last_last. apply in_or_app. right. left. reflexivity.
Qed.

Lemma person_inputs_keep (n : nat) :
  Forall (fun inp => is_clear_key (wait_key inp) = false) (map person_input (seq 0 n)).
Proof.
  apply Forall_forall. intros inp Hin. apply in_map_iff in Hin.
  destruct Hin as (i & <- & _). reflexivity.
Qed.

Lemma history_bounded_fifo_witness :
  match final_state (snd (run demo_lib start (map person_input (seq 0 101)))) with
  | Some s' =>
      map (fun entry => microsecond (time entry)) (detection_history (ls_self s'))
      = map Z.of_nat (seq 1 100) /\
      detection_history (ls_self s')
      = lastn 100 (entries_along demo_lib start (map person_input (seq 0 101)))
  | None => False
  end.
Proof.
  assert (Hrun : match final_state (snd (run demo_lib start
                                            (map person_input (seq 0 101)))) with
                 | Some s' =>
                     map (fun entry => microsecond (time entry))
                         (detection_history (ls_self s'))
                     = map Z.of_nat (seq 1 100)
                 | None => False
                 end) by (vm_compute; reflexivity).
  destruct (run demo_lib start (map person_input (seq 0 101))) as [frames e] eqn:E.
  simpl snd in *. destruct (final_state e) as [s'|] eqn:Ef; [|exact Hrun].
  split; [exact Hrun|].
  destruct (history_bounded_fifo demo_lib start s' (map person_input (seq 0 101))
              frames e ltac:(simpl; lia) E Ef) as (_ & _ & _ & H).
  exact (proj1 (H (person_inputs_keep 101))).
Defined.

(** The confidence text is that of the float32 product: for the float32
    confidence 0.5074999928474426 the product is 50.75 and the text is
    "50.8%" (the product of the same values as doubles, 50.7499992...,
    would give "50.7%"). *)
Example confidence_text_float32 :
  float32_mul 0.5074999928474426%float 100%float = 50.75%float /\
  confidence_text demo_lib 0.5074999928474426%float = "50.8%" /\
  texts_of_labels demo_lib [half_sure] = ["PERSON"; "50.8%"].
Proof. vm_compute. repeat split. Qed.
